(** * Demo2025: the form-intake service of [src/form.py]

    A shallow embedding of the Flask blueprint [form_bp]: the request
    handlers [submit_form], [reset_counter], [get_status] and
    [get_submissions], together with the helpers they call
    ([get_counter], [update_counter], [initialize_excel_file],
    [add_submission_to_excel], [get_all_submissions]).

    Modelling choices.
    - A Python [str] is a sequence of Unicode code points ([pystr]).
    - A request body is a JSON value as [json.loads] builds it ([json]);
      numbers are integers.
    - The two files under [data/] are the state: [counter.json] and the
      worksheet of [submissions.xlsx].  The workbook library is outside
      the repository: a worksheet is a list of rows, a row a list of cell
      values, and writing a cell or saving the workbook always succeeds.
      The directory bootstrap [ensure_data_directory] is not modelled.
    - A handler either returns a response or lets a Python exception
      escape ([result]); [datetime.now()] is an input ([Clock]). *)

From Stdlib Require Import String Ascii ZArith NArith List Bool Lia.
Import ListNotations.
Open Scope Z_scope.

(** ** Python strings *)

Definition pystr := list N.

Definition lit (s : string) : pystr :=
  map N_of_ascii (list_ascii_of_string s).

Fixpoint str_eqb (a b : pystr) : bool :=
  match a, b with
  | [], [] => true
  | x :: a', y :: b' => N.eqb x y && str_eqb a' b'
  | _, _ => false
  end.

(** [str.isspace()] on one code point; the same set is what [\s] matches
    in a [str] pattern and what [str.strip()] removes. *)
Definition py_isspace (c : N) : bool :=
  ((9 <=? c) && (c <=? 13) || (28 <=? c) && (c <=? 32)
   || (c =? 133) || (c =? 160) || (c =? 5760)
   || (8192 <=? c) && (c <=? 8202)
   || (c =? 8232) || (c =? 8233) || (c =? 8239) || (c =? 8287)
   || (c =? 12288))%N.

Fixpoint lstrip (s : pystr) : pystr :=
  match s with
  | c :: s' => if py_isspace c then lstrip s' else s
  | [] => []
  end.

Definition rstrip (s : pystr) : pystr := rev (lstrip (rev s)).

Definition strip (s : pystr) : pystr := rstrip (lstrip s).

(** [sub in s] for two strings. *)
Fixpoint is_prefix (p s : pystr) : bool :=
  match p, s with
  | [], _ => true
  | x :: p', y :: s' => N.eqb x y && is_prefix p' s'
  | _ :: _, [] => false
  end.

Fixpoint str_contains (sub s : pystr) : bool :=
  is_prefix sub s ||
  match s with
  | _ :: s' => str_contains sub s'
  | [] => false
  end.

(** [sep.join(parts)] *)
Fixpoint join (sep : pystr) (parts : list pystr) : pystr :=
  match parts with
  | [] => []
  | [p] => p
  | p :: rest => p ++ sep ++ join sep rest
  end.

(** ** The fragment of [re] the handlers use

    A pattern is a sequence of pieces; [re_match] is [pattern.match(s)]:
    the pattern is tried at position 0 and need not consume the string.
    [$] (no MULTILINE flag) holds at the end of the string and just before
    a newline that is the last character. *)

Inductive class_item :=
| Range (lo hi : N)
| Whitespace.

Definition in_item (c : N) (it : class_item) : bool :=
  match it with
  | Range lo hi => ((lo <=? c) && (c <=? hi))%N
  | Whitespace => py_isspace c
  end.

Definition in_class (cls : list class_item) (c : N) : bool :=
  existsb (in_item c) cls.

Inductive piece :=
| Bol
| Eol
| OneOrMore (cls : list class_item)
| Exactly (n : nat) (cls : list class_item).

Definition at_eol (s : pystr) : bool :=
  match s with
  | [] => true
  | [c] => (c =? 10)%N
  | _ => false
  end.

Fixpoint take_class (cls : list class_item) (n : nat) (s : pystr)
  : option pystr :=
  match n with
  | O => Some s
  | S n' =>
      match s with
      | c :: s' => if in_class cls c then take_class cls n' s' else None
      | [] => None
      end
  end.

(** Greedy [cls+] followed by the continuation [k], with backtracking. *)
Fixpoint plus_class (cls : list class_item) (k : pystr -> bool) (s : pystr)
  : bool :=
  match s with
  | c :: s' => in_class cls c && (plus_class cls k s' || k s')
  | [] => false
  end.

Fixpoint match_here (p : list piece) (start : bool) (s : pystr) : bool :=
  match p with
  | [] => true
  | Bol :: p' => start && match_here p' start s
  | Eol :: p' => at_eol s && match_here p' start s
  | OneOrMore cls :: p' => plus_class cls (match_here p' false) s
  | Exactly n cls :: p' =>
      match take_class cls n s with
      | Some s' =>
          match_here p' (match n with O => start | S _ => false end) s'
      | None => false
      end
  end.

Definition re_match (p : list piece) (s : pystr) : bool := match_here p true s.

(** [r'^[A-Za-z\s]+$'] *)
Definition name_class : list class_item :=
  [Range 65 90; Range 97 122; Whitespace].

Definition name_pattern : list piece := [Bol; OneOrMore name_class; Eol].

(** [r'^[0-9]{8}$'] *)
Definition digit_class : list class_item := [Range 48 57].

Definition phone_pattern : list piece := [Bol; Exactly 8 digit_class; Eol].

(** ** JSON values and Python's view of them *)

#[local] Unset Elimination Schemes.
Inductive json :=
| JNull
| JBool (b : bool)
| JInt (z : Z)
| JStr (s : pystr)
| JList (l : list json)
| JDict (d : list (pystr * json)).
#[local] Set Elimination Schemes.

(** [bool(v)] *)
Definition truthy (v : json) : bool :=
  match v with
  | JNull => false
  | JBool b => b
  | JInt z => negb (z =? 0)
  | JStr s => match s with [] => false | _ => true end
  | JList l => match l with [] => false | _ => true end
  | JDict d => match d with [] => false | _ => true end
  end.

(** [v == s] for a string [s]: only an equal string is equal to it. *)
Definition eq_str (v : json) (s : pystr) : bool :=
  match v with
  | JStr t => str_eqb t s
  | _ => false
  end.

Fixpoint dict_lookup (d : list (pystr * json)) (k : pystr) : option json :=
  match d with
  | [] => None
  | (k', v) :: d' => if str_eqb k' k then Some v else dict_lookup d' k
  end.

(** [d.get(k, default)]; [d.get(k)] is [dict_get d k JNull]. *)
Definition dict_get (d : list (pystr * json)) (k : pystr) (default : json)
  : json :=
  match dict_lookup d k with
  | Some v => v
  | None => default
  end.

Inductive exn := AttributeError | TypeError | KeyError.

Inductive result (A : Type) :=
| Ok (a : A)
| Raise (e : exn).
Arguments Ok {A} a.
Arguments Raise {A} e.

(** [d[k]] *)
Definition dict_item (d : list (pystr * json)) (k : pystr) : result json :=
  match dict_lookup d k with
  | Some v => Ok v
  | None => Raise KeyError
  end.

(** [pattern.match(v)]: a [TypeError] unless [v] is a string. *)
Definition pattern_match (p : list piece) (v : json) : result bool :=
  match v with
  | JStr s => Ok (re_match p s)
  | _ => Raise TypeError
  end.

(** [', '.join(l)]: a [TypeError] at the first element that is no string. *)
Fixpoint str_items (l : list json) : result (list pystr) :=
  match l with
  | [] => Ok []
  | JStr s :: l' =>
      match str_items l' with
      | Ok ss => Ok (s :: ss)
      | Raise e => Raise e
      end
  | _ :: _ => Raise TypeError
  end.

(** ** The persistent state: [data/counter.json] and [data/submissions.xlsx] *)

(** The JSON object in [counter.json]; either key may be absent. *)
Record CounterFile := {
  file_count : option Z;
  file_max_submissions : option Z
}.

Definition Row := list json.

Record State := {
  excel_file : option (list Row);
  counter_file : option CounterFile
}.

(** Nothing under [data/] yet. *)
Definition fresh : State := {| excel_file := None; counter_file := None |}.

Definition headers : Row :=
  map (fun h => JStr (lit h))
    ["ID"; "Name"; "Phone"; "Email"; "School Name"; "Selected Robot Types";
     "Submitted At"]%string.

Definition initialize_excel_file (st : State) : State :=
  match excel_file st with
  | Some _ => st
  | None => {| excel_file := Some [headers]; counter_file := counter_file st |}
  end.

Definition get_counter (st : State) : Z * Z :=
  match counter_file st with
  | Some data =>
      (match file_count data with Some c => c | None => 0 end,
       match file_max_submissions data with Some m => m | None => 10 end)
  | None => (0, 10)
  end.

Definition update_counter (count : Z) (st : State) : State :=
  {| excel_file := excel_file st;
     counter_file :=
       Some {| file_count := Some count; file_max_submissions := Some 10 |} |}.

(** [ws.max_row]: 1 on an empty sheet, else the index of the last row. *)
Definition max_row (ws : list Row) : Z := Z.max 1 (Z.of_nat (length ws)).

(** Writing the cells of row [r], a row below every row of the sheet. *)
Definition write_row (ws : list Row) (r : Z) (cells : Row) : list Row :=
  ws ++ repeat [] (Z.to_nat (r - 1) - length ws) ++ [cells].

(** [datetime.now()] as the handler reads it: once formatted with
    [strftime('%Y-%m-%d %H:%M:%S')] for the sheet, once with [isoformat()]
    for the response. *)
Record Clock := {
  now_strftime : pystr;
  now_isoformat : pystr
}.

Definition add_submission_to_excel (clk : Clock)
    (name phone email school_name selected_robots : json) (st : State)
  : result Z * State :=
  let st := initialize_excel_file st in
  let ws := match excel_file st with Some ws => ws | None => [] end in
  let next_row := max_row ws + 1 in
  let submission_id := next_row - 1 in
  let robots_str :=
    match selected_robots with
    | JList l =>
        match str_items l with
        | Ok ss => Ok (JStr (join (lit ", ") ss))
        | Raise e => Raise e
        end
    | _ => Ok selected_robots
    end in
  match robots_str with
  | Raise e => (Raise e, st)
  | Ok robots_str =>
      let cells :=
        [JInt submission_id; name; phone; email; school_name; robots_str;
         JStr (now_strftime clk)] in
      (Ok submission_id,
       {| excel_file := Some (write_row ws next_row cells);
          counter_file := counter_file st |})
  end.

(** One entry of [get_all_submissions]. *)
Record Submission := {
  sub_id : json;
  sub_name : json;
  sub_phone : json;
  sub_email : json;
  sub_school_name : json;
  sub_selected_robots : json;
  sub_submitted_at : json
}.

Definition is_none (v : json) : bool :=
  match v with JNull => true | _ => false end.

Definition cell (row : Row) (i : nat) : json := nth i row JNull.

(** The dict built from one row (lines 88-96). *)
Definition row_submission (row : Row) : Submission :=
  {| sub_id := cell row 0; sub_name := cell row 1;
     sub_phone := cell row 2; sub_email := cell row 3;
     sub_school_name := cell row 4;
     sub_selected_robots := cell row 5;
     sub_submitted_at := cell row 6 |}.

Definition get_all_submissions (st : State) : list Submission :=
  match excel_file st with
  | None => []
  | Some ws =>
      map row_submission
          (filter (fun row => negb (is_none (cell row 0))) (skipn 1 ws))
  end.

(** ** Responses *)

(** The ['message'] texts of the handlers. *)
Inductive Message :=
| LimitReached          (* 'Form submission limit reached. No more ...' *)
| NoData                (* 'No data provided' *)
| MissingField (field : pystr)   (* f'Missing required field: {field}' *)
| InvalidName           (* 'Name must contain only letters and spaces' *)
| InvalidPhone          (* 'Phone number must be exactly 8 digits' *)
| InvalidEmail          (* 'Email must contain @ symbol' *)
| NoRobotSelected       (* 'Please select at least one robot type' *)
| InvalidRobotType (robot : json) (* f'Invalid robot type selected: {robot}' *)
| Submitted             (* 'Form submitted successfully!' *)
| PasswordRequired      (* 'Password is required' *)
| IncorrectPassword     (* 'Incorrect password' *)
| CounterReset          (* 'Counter reset successfully!' *)
| ResetError.           (* 'Error resetting counter' *)

(** The ['counter'] object of a response. *)
Record CounterInfo := {
  count : Z;
  max_submissions : Z;
  submissions_remaining : Z;
  is_limit_reached : bool
}.

(** The ['submission'] object of the 201 response. *)
Record Accepted := {
  acc_id : Z;
  acc_name : json;
  acc_phone : json;
  acc_email : json;
  acc_school_name : json;
  acc_selected_robots : json;
  acc_submitted_at : pystr
}.

Record Response := {
  status : Z;
  success : option bool;
  message : option Message;
  submission : option Accepted;
  submissions : option (list Submission);
  counter : option CounterInfo
}.

(** [jsonify({'success': False, 'message': m}), code] *)
Definition failure (code : Z) (m : Message) : Response :=
  {| status := code; success := Some false; message := Some m;
     submission := None; submissions := None; counter := None |}.

Definition counter_info (count max_submissions : Z) : CounterInfo :=
  {| count := count; max_submissions := max_submissions;
     submissions_remaining := max_submissions - count;
     is_limit_reached := count >=? max_submissions |}.

(** ** Control flow inside a handler

    A step of a handler body goes on with a value, returns a response to
    the client ([return jsonify(...), code]) or raises. *)

Inductive flow (A : Type) :=
| Next (a : A)
| Reply (r : Response)
| Throw (e : exn).
Arguments Next {A} a.
Arguments Reply {A} r.
Arguments Throw {A} e.

Definition bind {A B : Type} (m : flow A) (k : A -> flow B) : flow B :=
  match m with
  | Next a => k a
  | Reply r => Reply r
  | Throw e => Throw e
  end.

Notation "x <- m ;; k" := (bind m (fun x => k))
  (at level 61, m at next level, right associativity).
Notation "m ;;; k" := (bind m (fun _ => k))
  (at level 61, right associativity).

Definition lift {A : Type} (r : result A) : flow A :=
  match r with
  | Ok a => Next a
  | Raise e => Throw e
  end.

(** [if cond: return r] *)
Definition return_if (cond : bool) (r : Response) : flow unit :=
  if cond then Reply r else Next tt.

(** ** POST /submit *)

Definition required_fields : list pystr :=
  map lit ["name"; "phone"; "school_name"; "selected_robots"]%string.

Definition allowed_robots : list pystr :=
  map lit ["Cleaning Robot"; "Security Robot"; "Delivery Robot"]%string.

(** [robot in allowed_robots] *)
Definition is_allowed (robot : json) : bool :=
  existsb (eq_str robot) allowed_robots.

(** [data.get(field)] on the request body: only a dict has [get]. *)
Definition body_get (data : json) (field : pystr) (default : json)
  : result json :=
  match data with
  | JDict d => Ok (dict_get d field default)
  | _ => Raise AttributeError
  end.

(** [data[field]] on the request body, a dict by the time it is used. *)
Definition body_item (data : json) (field : pystr) : result json :=
  match data with
  | JDict d => dict_item d field
  | _ => Raise TypeError
  end.

(** The loop over [required_fields] (lines 128-133). *)
Fixpoint check_required (data : json) (fields : list pystr) : flow unit :=
  match fields with
  | [] => Next tt
  | field :: rest =>
      v <- lift (body_get data field JNull) ;;
      return_if (negb (truthy v)) (failure 400 (MissingField field)) ;;;
      check_required data rest
  end.

(** [v.strip()]: only a string has [strip]. *)
Definition py_strip (v : json) : result pystr :=
  match v with
  | JStr s => Ok (strip s)
  | _ => Raise AttributeError
  end.

(** The loop over [selected_robots] (lines 169-174). *)
Fixpoint check_robots (robots : list json) : flow unit :=
  match robots with
  | [] => Next tt
  | robot :: rest =>
      return_if (negb (is_allowed robot))
                (failure 400 (InvalidRobotType robot)) ;;;
      check_robots rest
  end.

(** Lines 119-174 of [submit_form]: every check after the quota check.
    The value it goes on with is [selected_robots]. *)
Definition validate (data : json) : flow json :=
  return_if (negb (truthy data)) (failure 400 NoData) ;;;
  check_required data required_fields ;;;
  name <- lift (body_item data (lit "name")) ;;
  m <- lift (pattern_match name_pattern name) ;;
  return_if (negb m) (failure 400 InvalidName) ;;;
  phone <- lift (body_item data (lit "phone")) ;;
  m <- lift (pattern_match phone_pattern phone) ;;
  return_if (negb m) (failure 400 InvalidPhone) ;;;
  e <- lift (body_get data (lit "email") (JStr [])) ;;
  email <- lift (py_strip e) ;;
  return_if (truthy (JStr email) && negb (str_contains (lit "@") email))
            (failure 400 InvalidEmail) ;;;
  selected_robots <- lift (body_item data (lit "selected_robots")) ;;
  match selected_robots with
  | JList robots =>
      return_if (Nat.eqb (length robots) 0) (failure 400 NoRobotSelected) ;;;
      check_robots robots ;;;
      Next selected_robots
  | _ => Reply (failure 400 NoRobotSelected)
  end.

(** Lines 176-207 of [submit_form]: store the row, bump the counter,
    build the 201 response. *)
Definition accept (clk : Clock) (count max_submissions : Z) (data : json)
    (selected_robots : json) (st : State) : result Response * State :=
  match body_item data (lit "name"), body_item data (lit "phone"),
        body_get data (lit "email") (JStr []),
        body_item data (lit "school_name") with
  | Ok name, Ok phone, Ok email, Ok school_name =>
      match add_submission_to_excel clk name phone email school_name
              selected_robots st with
      | (Raise e, st) => (Raise e, st)
      | (Ok submission_id, st) =>
          let count := count + 1 in
          let st := update_counter count st in
          (Ok {| status := 201;
                 success := Some true;
                 message := Some Submitted;
                 submission :=
                   Some {| acc_id := submission_id;
                           acc_name := name;
                           acc_phone := phone;
                           acc_email := email;
                           acc_school_name := school_name;
                           acc_selected_robots := selected_robots;
                           acc_submitted_at := now_isoformat clk |};
                 submissions := None;
                 counter := Some (counter_info count max_submissions) |},
           st)
      end
  | Raise e, _, _, _ | _, Raise e, _, _ | _, _, Raise e, _
  | _, _, _, Raise e => (Raise e, st)
  end.

Definition submit_form (clk : Clock) (data : json) (st : State)
  : result Response * State :=
  let '(count, max_submissions) := get_counter st in
  if count >=? max_submissions then
    (Ok {| status := 403;
           success := Some false;
           message := Some LimitReached;
           submission := None;
           submissions := None;
           counter :=
             Some {| count := count;
                     max_submissions := max_submissions;
                     submissions_remaining := max_submissions - count;
                     is_limit_reached := true |} |},
     st)
  else
    match validate data with
    | Reply r => (Ok r, st)
    | Throw e => (Raise e, st)
    | Next selected_robots =>
        accept clk count max_submissions data selected_robots st
    end.

(** ** GET /status and GET /submissions *)

Definition get_status (st : State) : Response :=
  let '(count, max_submissions) := get_counter st in
  {| status := 200; success := None; message := None; submission := None;
     submissions := None;
     counter := Some (counter_info count max_submissions) |}.

Definition get_submissions (st : State) : Response :=
  let submissions := get_all_submissions st in
  let '(count, max_submissions) := get_counter st in
  {| status := 200; success := None; message := None; submission := None;
     submissions := Some submissions;
     counter := Some (counter_info count max_submissions) |}.

(** ** POST /reset *)

(** ['password' in data] *)
Definition has_password (data : json) : result bool :=
  match data with
  | JDict d =>
      Ok (match dict_lookup d (lit "password") with
          | Some _ => true
          | None => false
          end)
  | JList l => Ok (existsb (fun v => eq_str v (lit "password")) l)
  | JStr s => Ok (str_contains (lit "password") s)
  | _ => Raise TypeError
  end.

(** The body of the [try] block. *)
Definition reset_try (data : json) (st : State) : flow Response * State :=
  if negb (truthy data) then (Reply (failure 400 PasswordRequired), st)
  else
    match has_password data with
    | Raise e => (Throw e, st)
    | Ok false => (Reply (failure 400 PasswordRequired), st)
    | Ok true =>
        match body_item data (lit "password") with
        | Raise e => (Throw e, st)
        | Ok password =>
            if negb (eq_str password (lit "25485650")) then
              (Reply (failure 401 IncorrectPassword), st)
            else
              let st := update_counter 0 st in
              (Reply {| status := 200;
                        success := Some true;
                        message := Some CounterReset;
                        submission := None;
                        submissions := None;
                        counter :=
                          Some {| count := 0;
                                  max_submissions := 10;
                                  submissions_remaining := 10;
                                  is_limit_reached := false |} |},
               st)
        end
    end.

(** [except Exception] turns anything raised into the 500 response. *)
Definition reset_counter (data : json) (st : State) : Response * State :=
  match reset_try data st with
  | (Reply r, st) => (r, st)
  | (Next r, st) => (r, st)
  | (Throw _, st) => (failure 500 ResetError, st)
  end.

(** ** Sequences of requests *)

Inductive Request :=
| Submit (clk : Clock) (data : json)
| Reset (data : json)
| Status
| Submissions.

Definition handle (rq : Request) (st : State) : result Response * State :=
  match rq with
  | Submit clk data => submit_form clk data st
  | Reset data => let '(r, st) := reset_counter data st in (Ok r, st)
  | Status => (Ok (get_status st), st)
  | Submissions => (Ok (get_submissions st), st)
  end.

Fixpoint run (rqs : list Request) (st : State)
  : list (result Response) * State :=
  match rqs with
  | [] => ([], st)
  | rq :: rest =>
      let '(r, st) := handle rq st in
      let '(rs, st) := run rest st in
      (r :: rs, st)
  end.

(** The states the service reaches from an empty data directory. *)
Inductive reachable : State -> Prop :=
| reachable_fresh : reachable fresh
| reachable_step rq st :
    reachable st -> reachable (snd (handle rq st)).

(** ** Vocabulary of the statements *)

(** A letter or a whitespace character: what [[A-Za-z\s]] matches. *)
Definition name_char (c : N) : bool :=
  ((65 <=? c) && (c <=? 90) || (97 <=? c) && (c <=? 122))%N || py_isspace c.

(** An ASCII digit: what [[0-9]] matches. *)
Definition digit (c : N) : bool := ((48 <=? c) && (c <=? 57))%N.

Definition nonempty {A : Type} (l : list A) : bool :=
  match l with
  | [] => false
  | _ :: _ => true
  end.

(** Exactly 8 ASCII digits. *)
Definition eight_digits (s : pystr) : bool :=
  Nat.eqb (length s) 8 && forallb digit s.

(** The quota gate is OPEN. *)
Definition quota_open (st : State) : Prop :=
  fst (get_counter st) < snd (get_counter st).

(** The presence check (lines 127-133) finds nothing missing. *)
Definition present (d : list (pystr * json)) : bool :=
  forallb (fun field => truthy (dict_get d field JNull)) required_fields.

(** The name check (lines 137-142) lets the request through. *)
Definition name_passes (d : list (pystr * json)) : bool :=
  match dict_lookup d (lit "name") with
  | Some (JStr s) => re_match name_pattern s
  | _ => false
  end.

(** The phone check (lines 145-150) lets the request through. *)
Definition phone_passes (d : list (pystr * json)) : bool :=
  match dict_lookup d (lit "phone") with
  | Some (JStr s) => re_match phone_pattern s
  | _ => false
  end.

(** The email check (lines 153-158) lets the request through. *)
Definition email_passes (d : list (pystr * json)) : bool :=
  match dict_lookup d (lit "email") with
  | None => true
  | Some (JStr e) =>
      negb (nonempty (strip e) && negb (str_contains (lit "@") (strip e)))
  | Some _ => false
  end.

(** The checks on [selected_robots] (lines 161-174) let the request
    through. *)
Definition robots_pass (d : list (pystr * json)) : bool :=
  match dict_lookup d (lit "selected_robots") with
  | Some (JList l) => nonempty l && forallb is_allowed l
  | _ => false
  end.

(** The strings among the elements of a JSON list. *)
Fixpoint names (l : list json) : list pystr :=
  match l with
  | [] => []
  | JStr s :: l' => s :: names l'
  | _ :: l' => names l'
  end.

(** A payload as the data model of the specification has it: a name of
    letters and whitespace, a phone of 8 digits, a non-empty school name,
    an email that is absent, blank or holds an [@], and a non-empty list
    of allowed robot types. *)
Definition valid_payload (data : json) : bool :=
  match data with
  | JDict d =>
      match dict_lookup d (lit "name"), dict_lookup d (lit "phone"),
            dict_lookup d (lit "school_name"),
            dict_lookup d (lit "selected_robots") with
      | Some (JStr name), Some (JStr phone), Some (JStr school),
        Some (JList robots) =>
          nonempty name && forallb name_char name
          && eight_digits phone
          && nonempty school
          && match dict_lookup d (lit "email") with
             | None => true
             | Some (JStr e) =>
                 negb (nonempty (strip e)) || existsb (N.eqb 64) e
             | Some _ => false
             end
          && nonempty robots && forallb is_allowed robots
      | _, _, _, _ => false
      end
  | _ => false
  end.

(** One of the three robot types of the enumeration. *)
Definition robot_type (r : json) : Prop :=
  r = JStr (lit "Cleaning Robot") \/ r = JStr (lit "Security Robot")
  \/ r = JStr (lit "Delivery Robot").

(** The request was answered 201. *)
Definition accepted (r : result Response) : bool :=
  match r with
  | Ok resp => (status resp =? 201) &&
               match success resp with Some true => true | _ => false end
  | Raise _ => false
  end.

(** The id a response reports for a stored submission, if any. *)
Definition accepted_id (r : result Response) : option Z :=
  match r with
  | Ok resp =>
      match submission resp with
      | Some a => Some (acc_id a)
      | None => None
      end
  | Raise _ => None
  end.


(** [a; a+1; ...], [n] of them. *)
Fixpoint ids_from (a : Z) (n : nat) : list Z :=
  match n with
  | O => []
  | S n' => a :: ids_from (a + 1) n'
  end.

(** The number of persisted records. *)
Definition record_count (st : State) : Z :=
  Z.of_nat (length (get_all_submissions st)).

(** The row [add_submission_to_excel] stores for an accepted body. *)
Definition stored (clk : Clock) (id : Z) (d : list (pystr * json))
  : Submission :=
  {| sub_id := JInt id;
     sub_name := dict_get d (lit "name") JNull;
     sub_phone := dict_get d (lit "phone") JNull;
     sub_email := dict_get d (lit "email") (JStr []);
     sub_school_name := dict_get d (lit "school_name") JNull;
     sub_selected_robots :=
       match dict_get d (lit "selected_robots") JNull with
       | JList l => JStr (join (lit ", ") (names l))
       | v => v
       end;
     sub_submitted_at := JStr (now_strftime clk) |}.

(** What the service keeps true of its files: the counter's maximum is
    10, and the sheet, once created, is the header row followed by rows
    whose first cells are 1, 2, 3, ... *)
Definition sheet_ok (ws : list Row) : Prop :=
  exists rows,
    ws = headers :: rows /\
    map (fun row => cell row 0) rows = map JInt (ids_from 1 (length rows)).

Definition store_ok (st : State) : Prop :=
  snd (get_counter st) = 10 /\
  match excel_file st with
  | None => True
  | Some ws => sheet_ok ws
  end.

(** The sheet [add_submission_to_excel] loads: the file's, or the fresh
    header row. *)
Definition loaded_sheet (st : State) : list Row :=
  match excel_file (initialize_excel_file st) with
  | Some ws => ws
  | None => []
  end.

(** The 201 response to an accepted body [d], stored under [id] when the
    counter read [count]. *)
Definition created (clk : Clock) (id count max_submissions : Z)
    (d : list (pystr * json)) : Response :=
  {| status := 201;
     success := Some true;
     message := Some Submitted;
     submission :=
       Some {| acc_id := id;
               acc_name := dict_get d (lit "name") JNull;
               acc_phone := dict_get d (lit "phone") JNull;
               acc_email := dict_get d (lit "email") (JStr []);
               acc_school_name := dict_get d (lit "school_name") JNull;
               acc_selected_robots :=
                 dict_get d (lit "selected_robots") JNull;
               acc_submitted_at := now_isoformat clk |};
     submissions := None;
     counter := Some (counter_info (count + 1) max_submissions) |}.

(** The files after an accepted body [d]. *)
Definition after_accept (clk : Clock) (d : list (pystr * json)) (st : State)
  : State :=
  let ws := loaded_sheet st in
  {| excel_file :=
       Some (write_row ws (max_row ws + 1)
               [JInt (max_row ws);
                dict_get d (lit "name") JNull;
                dict_get d (lit "phone") JNull;
                dict_get d (lit "email") (JStr []);
                dict_get d (lit "school_name") JNull;
                match dict_get d (lit "selected_robots") JNull with
                | JList l => JStr (join (lit ", ") (names l))
                | v => v
                end;
                JStr (now_strftime clk)]);
     counter_file :=
       Some {| file_count := Some (fst (get_counter st) + 1);
               file_max_submissions := Some 10 |} |}.

(** Every check of [submit_form] lets the body through. *)
Definition passes (d : list (pystr * json)) : bool :=
  present d && name_passes d && phone_passes d && email_passes d
  && robots_pass d.

(** ** Sample requests *)

Definition clock0 : Clock :=
  {| now_strftime := lit "2025-06-01 09:30:00";
     now_isoformat := lit "2025-06-01T09:30:00.000000" |}.

Definition str (s : string) : json := JStr (lit s).

(** A body with the four required fields. *)
Definition form (name phone robots : json) : list (pystr * json) :=
  [(lit "name", name); (lit "phone", phone);
   (lit "school_name", str "Hillside School");
   (lit "selected_robots", robots)].

Definition cleaning : json := JList [str "Cleaning Robot"].

Definition john : list (pystr * json) :=
  form (str "John Doe") (str "12345678") cleaning.

(** The files after [john] was submitted to a fresh service. *)
Definition after_john : State := snd (submit_form clock0 (JDict john) fresh).

(** The same body with an email field. *)
Definition with_email (email : json) (d : list (pystr * json))
  : list (pystr * json) :=
  d ++ [(lit "email", email)].

(** A body that carries a password. *)
Definition credentials (password : json) : json :=
  JDict [(lit "password", password)].


(** The answer of a closed service whose counter reads [count] of
    [max_submissions]. *)
Definition quota_exceeded (count max_submissions : Z) : Response :=
  {| status := 403;
     success := Some false;
     message := Some LimitReached;
     submission := None;
     submissions := None;
     counter :=
       Some {| count := count;
               max_submissions := max_submissions;
               submissions_remaining := max_submissions - count;
               is_limit_reached := true |} |}.

(** ** GET /download *)



(** ** The database models of [src/form_submission.py] *)

(** [s.split(sep)] for a separator of one character. *)
Fixpoint split (sep : N) (s : pystr) : list pystr :=
  match s with
  | [] => [[]]
  | c :: s' =>
      if (c =? sep)%N then [] :: split sep s'
      else
        match split sep s' with
        | piece :: rest => (c :: piece) :: rest
        | [] => [[c]]
        end
  end.

(** An attribute of a model object is [None] until it is given a value;
    [submitted_at] stands for the text its [isoformat()] gives. *)
Module FormSubmission.

Record t := {
  id : option Z;
  name : option pystr;
  school_name : option pystr;
  selected_robots : option pystr;
  submitted_at : option pystr
}.

(** The dict [to_dict] builds. *)
Record dict := {
  d_id : option Z;
  d_name : option pystr;
  d_school_name : option pystr;
  d_selected_robots : list pystr;
  d_submitted_at : pystr
}.

Definition to_dict (self : t) : result dict :=
  let robots :=
    match selected_robots self with
    | Some s => match s with [] => [] | _ :: _ => split 44 s end
    | None => []
    end in
  match submitted_at self with
  | Some iso =>
      Ok {| d_id := id self;
            d_name := name self;
            d_school_name := school_name self;
            d_selected_robots := robots;
            d_submitted_at := iso |}
  | None => Raise AttributeError
  end.

End FormSubmission.

Module SubmissionCounter.

Record t := {
  id : option Z;
  count : option Z;
  max_submissions : option Z
}.

(** The dict [to_dict] builds. *)
Record dict := {
  d_id : option Z;
  d_count : Z;
  d_max_submissions : Z;
  d_submissions_remaining : Z;
  d_is_limit_reached : bool
}.

(** [self.max_submissions - self.count] and the comparison raise
    [TypeError] on [None]. *)
Definition to_dict (self : t) : result dict :=
  match max_submissions self, count self with
  | Some m, Some c =>
      Ok {| d_id := id self;
            d_count := c;
            d_max_submissions := m;
            d_submissions_remaining := m - c;
            d_is_limit_reached := c >=? m |}
  | _, _ => Raise TypeError
  end.

End SubmissionCounter.

(** ** Vocabulary of the further properties *)

(** The quota gate is CLOSED. *)
Definition quota_closed (st : State) : Prop :=
  fst (get_counter st) >= snd (get_counter st).

(** A body that resets the counter: a dict whose password is the secret. *)
Definition right_password (data : json) : Prop :=
  exists d, data = JDict d
            /\ dict_lookup d (lit "password") = Some (JStr (lit "25485650")).

(** The string has no comma. *)
Definition comma_free (s : pystr) : bool := negb (existsb (N.eqb 44) s).

(** A counter file written by hand, with its own maximum. *)
Definition configured (count max_submissions : Z) : State :=
  {| excel_file := None;
     counter_file :=
       Some {| file_count := Some count;
               file_max_submissions := Some max_submissions |} |}.


(** * Properties *)

Arguments lit : simpl never.

(** ** Strings and patterns *)

Lemma str_eqb_eq (a b : pystr) : str_eqb a b = true <-> a = b.
Proof.
  revert b; induction a as [|x a IH]; intros [|y b]; simpl;
    try (split; [discriminate | congruence]); [tauto|].
  rewrite andb_true_iff, N.eqb_eq, IH.
  split; [intros [-> ->]; reflexivity | intros E; inversion E; auto].
Qed.

Lemma str_eqb_refl (a : pystr) : str_eqb a a = true.
Proof. apply str_eqb_eq; reflexivity. Qed.

Lemma eq_str_true (v : json) (s : pystr) : eq_str v s = true <-> v = JStr s.
Proof.
  destruct v; simpl; try (split; [discriminate | congruence]).
  rewrite str_eqb_eq. split; [congruence | intros E; inversion E; auto].
Qed.


Lemma in_digit_class (c : N) : in_class digit_class c = digit c.
Proof. unfold in_class, digit_class, digit; simpl. apply orb_false_r. Qed.

Lemma forallb_ext {A : Type} (f g : A -> bool) (l : list A) :
  (forall x, f x = g x) -> forallb f l = forallb g l.
Proof.
  intros E. induction l as [|x l IH]; simpl; [reflexivity|].
  rewrite E, IH; reflexivity.
Qed.



Lemma take_class_app (cls : list class_item) (d r : pystr) :
  forallb (in_class cls) d = true ->
  take_class cls (length d) (d ++ r) = Some r.
Proof.
  induction d as [|c d IH]; simpl; [reflexivity|].
  intros H. apply andb_true_iff in H as [-> H]. auto.
Qed.

Lemma take_class_inv (cls : list class_item) (n : nat) (s r : pystr) :
  take_class cls n s = Some r ->
  exists d, s = d ++ r /\ length d = n /\ forallb (in_class cls) d = true.
Proof.
  revert s; induction n as [|n IH]; intros s; simpl.
  - intros [= ->]. exists []; auto.
  - destruct s as [|c s]; [discriminate|].
    destruct (in_class cls c) eqn:Hc; [|discriminate].
    intros H. destruct (IH _ H) as (d & -> & <- & Hd).
    exists (c :: d); simpl. rewrite Hc, Hd; auto.
Qed.

Lemma forallb_digit_class (d : pystr) :
  forallb (in_class digit_class) d = forallb digit d.
Proof. apply forallb_ext, in_digit_class. Qed.

Lemma at_eol_spec (r : pystr) : at_eol r = true <-> r = [] \/ r = [10%N].
Proof.
  destruct r as [|c [|x r]]; simpl.
  - split; auto.
  - rewrite N.eqb_eq. split; [intros ->; auto | intros [H|H]; congruence].
  - split; [discriminate | intros [H|H]; discriminate].
Qed.

(** [phone_pattern.match(s)] succeeds on 8 digits, and on 8 digits
    followed by one newline. *)
Lemma phone_pattern_spec (s : pystr) :
  re_match phone_pattern s = true <->
  exists d, eight_digits d = true /\ (s = d \/ s = d ++ [10%N]).
Proof.
  unfold re_match, phone_pattern, eight_digits. cbn [match_here andb].
  split.
  - destruct (take_class digit_class 8 s) as [r|] eqn:Ht; [|discriminate].
    rewrite andb_true_r. intros Hr.
    apply take_class_inv in Ht as (d & -> & Hlen & Hd).
    rewrite forallb_digit_class in Hd.
    exists d. rewrite Hlen, Hd. split; [reflexivity|].
    apply at_eol_spec in Hr as [-> | ->]; [left; apply app_nil_r | auto].
  - intros (d & Hd & Hs). apply andb_true_iff in Hd as [Hlen Hd].
    apply Nat.eqb_eq in Hlen.
    rewrite <- forallb_digit_class in Hd.
    destruct Hs as [-> | ->].
    + rewrite <- (app_nil_r d) at 1. rewrite <- Hlen.
      rewrite take_class_app by assumption. reflexivity.
    + rewrite <- Hlen, take_class_app by assumption. reflexivity.
Qed.


(** ** The checks of [submit_form], one by one *)

Lemma check_required_dict (d : list (pystr * json)) (fields : list pystr) :
  check_required (JDict d) fields =
  match find (fun f => negb (truthy (dict_get d f JNull))) fields with
  | Some f => Reply (failure 400 (MissingField f))
  | None => Next tt
  end.
Proof.
  induction fields as [|f fields IH]; [reflexivity|].
  cbn [check_required find body_get lift bind].
  destruct (truthy (dict_get d f JNull)); cbn; [apply IH | reflexivity].
Qed.

Lemma find_forallb {A : Type} (f : A -> bool) (l : list A) :
  forallb f l = true -> find (fun x => negb (f x)) l = None.
Proof.
  induction l as [|x l IH]; simpl; [reflexivity|].
  intros H. apply andb_true_iff in H as [-> H]. auto.
Qed.

Lemma find_not_forallb {A : Type} (f : A -> bool) (l : list A) :
  forallb f l = false -> exists x, find (fun x => negb (f x)) l = Some x.
Proof.
  induction l as [|x l IH]; simpl; [discriminate|].
  destruct (f x); simpl; [exact IH | intros _; eauto].
Qed.

Lemma present_check (d : list (pystr * json)) :
  present d = true -> check_required (JDict d) required_fields = Next tt.
Proof.
  intros H. rewrite check_required_dict.
  unfold present in H. rewrite (find_forallb _ _ H). reflexivity.
Qed.

Lemma absent_check (d : list (pystr * json)) :
  present d = false ->
  exists f, check_required (JDict d) required_fields
            = Reply (failure 400 (MissingField f)).
Proof.
  intros H. rewrite check_required_dict.
  destruct (find_not_forallb _ _ H) as [f ->]. eauto.
Qed.

Lemma present_truthy (d : list (pystr * json)) :
  present d = true -> truthy (JDict d) = true.
Proof. destruct d; [discriminate | reflexivity]. Qed.

Lemma present_lookup (d : list (pystr * json)) (f : pystr) :
  present d = true -> In f required_fields ->
  exists v, dict_lookup d f = Some v /\ truthy v = true.
Proof.
  unfold present. rewrite forallb_forall. intros H Hin.
  specialize (H f Hin). unfold dict_get in H.
  destruct (dict_lookup d f) as [v|]; [eauto | discriminate].
Qed.

(** The checks on the robot list, as one test. *)
Lemma check_robots_spec (l : list json) :
  check_robots l =
  match find (fun r => negb (is_allowed r)) l with
  | Some r => Reply (failure 400 (InvalidRobotType r))
  | None => Next tt
  end.
Proof.
  induction l as [|r l IH]; [reflexivity|].
  cbn [check_robots find]. destruct (is_allowed r); cbn; auto.
Qed.

(** [validate] on a dict that passes the presence check, check by check. *)
Lemma validate_present (d : list (pystr * json)) :
  present d = true ->
  validate (JDict d) =
  match dict_lookup d (lit "name") with
  | Some (JStr name) =>
      if re_match name_pattern name then
        match dict_lookup d (lit "phone") with
        | Some (JStr phone) =>
            if re_match phone_pattern phone then
              match dict_get d (lit "email") (JStr []) with
              | JStr e =>
                  if nonempty (strip e)
                     && negb (str_contains (lit "@") (strip e))
                  then Reply (failure 400 InvalidEmail)
                  else
                    match dict_lookup d (lit "selected_robots") with
                    | Some (JList l) =>
                        if nonempty l then
                          match find (fun r => negb (is_allowed r)) l with
                          | Some r =>
                              Reply (failure 400 (InvalidRobotType r))
                          | None => Next (JList l)
                          end
                        else Reply (failure 400 NoRobotSelected)
                    | Some _ => Reply (failure 400 NoRobotSelected)
                    | None => Throw KeyError
                    end
              | _ => Throw AttributeError
              end
            else Reply (failure 400 InvalidPhone)
        | Some _ => Throw TypeError
        | None => Throw KeyError
        end
      else Reply (failure 400 InvalidName)
  | Some _ => Throw TypeError
  | None => Throw KeyError
  end.
Proof.
  intros Hp. unfold validate.
  rewrite (present_truthy d Hp), (present_check d Hp).
  cbn [negb return_if bind body_item body_get lift]. unfold dict_item.
  destruct (dict_lookup d (lit "name")) as [[| ? | ? | name | ? | ?]|];
    try reflexivity.
  cbn [lift bind pattern_match].
  destruct (re_match name_pattern name); [|reflexivity].
  cbn [negb return_if bind].
  destruct (dict_lookup d (lit "phone")) as [[| ? | ? | phone | ? | ?]|];
    try reflexivity.
  cbn [lift bind pattern_match].
  destruct (re_match phone_pattern phone); [|reflexivity].
  cbn [negb return_if bind].
  destruct (dict_get d (lit "email") (JStr [])) as [| ? | ? | e | ? | ?];
    try reflexivity.
  cbn [lift bind py_strip truthy].
  replace (match strip e with [] => false | _ :: _ => true end)
    with (nonempty (strip e)) by reflexivity.
  destruct (nonempty (strip e) && _); [reflexivity|].
  cbn [return_if bind].
  destruct (dict_lookup d (lit "selected_robots"))
    as [[| ? | ? | ? | l | ?]|]; try reflexivity.
  cbn [lift bind].
  destruct l as [|r l]; [reflexivity|].
  cbn [length Nat.eqb return_if bind nonempty].
  rewrite check_robots_spec.
  destruct (find _ (r :: l)); reflexivity.
Qed.

(** Case analysis on a field of the body: absent, or one of the six kinds
    of JSON value; the cases a hypothesis rules out are closed. *)
Ltac field_cases t :=
  destruct t as [[| ? | ? | ? | ? | ?]|]; try discriminate.

(** Past the name and phone checks, what is left of [validate] is the
    email check and the checks on the robot list. *)
Lemma validate_email_robots (d : list (pystr * json)) :
  present d = true -> name_passes d = true -> phone_passes d = true ->
  validate (JDict d) =
  match dict_get d (lit "email") (JStr []) with
  | JStr e =>
      if nonempty (strip e) && negb (str_contains (lit "@") (strip e))
      then Reply (failure 400 InvalidEmail)
      else
        match dict_lookup d (lit "selected_robots") with
        | Some (JList l) =>
            if nonempty l then
              match find (fun r => negb (is_allowed r)) l with
              | Some r => Reply (failure 400 (InvalidRobotType r))
              | None => Next (JList l)
              end
            else Reply (failure 400 NoRobotSelected)
        | Some _ => Reply (failure 400 NoRobotSelected)
        | None => Throw KeyError
        end
  | _ => Throw AttributeError
  end.
Proof.
  intros Hp Hn Hph. rewrite (validate_present d Hp).
  unfold name_passes in Hn. unfold phone_passes in Hph.
  field_cases (dict_lookup d (lit "name")). rewrite Hn.
  field_cases (dict_lookup d (lit "phone")). rewrite Hph.
  reflexivity.
Qed.

(** Whatever the body, [validate] on a non-dict never goes on. *)
Lemma validate_not_dict (data : json) :
  (forall d, data <> JDict d) ->
  validate data = Reply (failure 400 NoData)
  \/ validate data = Throw AttributeError.
Proof.
  intros H. unfold validate.
  destruct data as [| [] | z | [|c s] | [|x l] | d]; cbn; auto.
  - destruct (z =? 0); cbn; auto.
  - exfalso; eapply H; reflexivity.
Qed.

Lemma validate_absent (d : list (pystr * json)) :
  present d = false ->
  exists m, validate (JDict d) = Reply (failure 400 m).
Proof.
  intros H. unfold validate. destruct d as [|kv d]; [cbn; eauto|].
  destruct (absent_check _ H) as [f Hf].
  cbn [truthy negb return_if bind]. rewrite Hf. cbn. eauto.
Qed.

(** ** Allowed robot types *)

Lemma is_allowed_spec (r : json) :
  is_allowed r = true <-> exists s, r = JStr s /\ In s allowed_robots.
Proof.
  unfold is_allowed. rewrite existsb_exists. split.
  - intros (s & Hin & He). apply eq_str_true in He. eauto.
  - intros (s & -> & Hin). exists s. split; [exact Hin|].
    apply eq_str_true; reflexivity.
Qed.

Lemma is_allowed_robot_type (r : json) :
  is_allowed r = true <-> robot_type r.
Proof.
  rewrite is_allowed_spec. unfold robot_type, allowed_robots. cbn [map In].
  split.
  - intros (s & -> & [<- | [<- | [<- | []]]]); auto.
  - intros [-> | [-> | ->]]; eexists; split; try reflexivity; auto.
Qed.

Lemma str_items_allowed (l : list json) :
  forallb is_allowed l = true -> str_items l = Ok (names l).
Proof.
  induction l as [|r l IH]; [reflexivity|].
  cbn [forallb]. intros H. apply andb_true_iff in H as [Hr Hl].
  apply is_allowed_spec in Hr as (s & -> & _).
  cbn. rewrite (IH Hl). reflexivity.
Qed.

Lemma find_allowed_none (l : list json) :
  find (fun r => negb (is_allowed r)) l = None <->
  forallb is_allowed l = true.
Proof.
  induction l as [|r l IH]; simpl; [tauto|].
  destruct (is_allowed r); simpl; [exact IH|].
  split; discriminate.
Qed.

(** ** [submit_form] as a whole *)

Lemma validate_passes (d : list (pystr * json)) :
  passes d = true ->
  validate (JDict d) = Next (dict_get d (lit "selected_robots") JNull)
  /\ exists l, dict_lookup d (lit "selected_robots") = Some (JList l)
               /\ forallb is_allowed l = true.
Proof.
  unfold passes. rewrite !andb_true_iff.
  intros ((((Hp & Hn) & Hph) & He) & Hr).
  rewrite (validate_email_robots d Hp Hn Hph).
  unfold email_passes in He. unfold robots_pass in Hr. unfold dict_get.
  field_cases (dict_lookup d (lit "selected_robots")).
  apply andb_true_iff in Hr as [Hl Hall]. rewrite Hl.
  rewrite (proj2 (find_allowed_none _) Hall).
  field_cases (dict_lookup d (lit "email")).
  - apply negb_true_iff in He. rewrite He. eauto.
  - cbn. eauto.
Qed.

Lemma validate_next (d : list (pystr * json)) (v : json) :
  validate (JDict d) = Next v -> passes d = true.
Proof.
  destruct (present d) eqn:Hp.
  2:{ destruct (validate_absent d Hp) as [m ->]. discriminate. }
  rewrite (validate_present d Hp).
  unfold passes, name_passes, phone_passes, email_passes, robots_pass,
    dict_get. rewrite Hp.
  destruct (dict_lookup d (lit "name")) as [[| ? | ? | name | ? | ?]|];
    try discriminate.
  destruct (re_match name_pattern name); [|discriminate].
  destruct (dict_lookup d (lit "phone")) as [[| ? | ? | phone | ? | ?]|];
    try discriminate.
  destruct (re_match phone_pattern phone); [|discriminate].
  destruct (dict_lookup d (lit "email")) as [[| ? | ? | e | ? | ?]|];
    try discriminate.
  - destruct (nonempty (strip e) && _); [discriminate|].
    destruct (dict_lookup d (lit "selected_robots"))
      as [[| ? | ? | ? | l | ?]|]; try discriminate.
    destruct (nonempty l); [|discriminate].
    destruct (find _ l) eqn:Hf; [discriminate|].
    apply find_allowed_none in Hf. rewrite Hf. reflexivity.
  - cbn [strip lstrip rstrip rev nonempty andb].
    destruct (dict_lookup d (lit "selected_robots"))
      as [[| ? | ? | ? | l | ?]|]; try discriminate.
    destruct (nonempty l); [|discriminate].
    destruct (find _ l) eqn:Hf; [discriminate|].
    apply find_allowed_none in Hf. rewrite Hf. reflexivity.
Qed.

Lemma accept_passes (clk : Clock) (count max_submissions : Z)
    (d : list (pystr * json)) (st : State) :
  passes d = true -> fst (get_counter st) = count ->
  accept clk count max_submissions (JDict d)
    (dict_get d (lit "selected_robots") JNull) st
  = (Ok (created clk (max_row (loaded_sheet st)) count max_submissions d),
     after_accept clk d st).
Proof.
  intros Hpass <-. destruct (validate_passes d Hpass) as (_ & l & Hl & Hall).
  unfold passes in Hpass. rewrite !andb_true_iff in Hpass.
  destruct Hpass as ((((Hp & _) & _) & _) & _).
  assert (Hin : forall f, In f required_fields ->
                          dict_item d f = Ok (dict_get d f JNull)).
  { intros f Hf. destruct (present_lookup d f Hp Hf) as (v & Hv & _).
    unfold dict_item, dict_get. rewrite Hv. reflexivity. }
  unfold accept, body_item, body_get.
  rewrite !Hin by (cbn; auto).
  unfold add_submission_to_excel, after_accept, created.
  fold (loaded_sheet st).
  assert (Hsel : dict_get d (lit "selected_robots") JNull = JList l).
  { unfold dict_get. rewrite Hl. reflexivity. }
  rewrite !Hsel, (str_items_allowed l Hall).
  replace (max_row (loaded_sheet st) + 1 - 1) with (max_row (loaded_sheet st))
    by lia.
  unfold loaded_sheet, update_counter. cbn [excel_file counter_file].
  reflexivity.
Qed.

Lemma submit_form_closed (clk : Clock) (data : json) (st : State) :
  fst (get_counter st) >= snd (get_counter st) ->
  submit_form clk data st =
  (Ok {| status := 403; success := Some false; message := Some LimitReached;
         submission := None; submissions := None;
         counter :=
           Some {| count := fst (get_counter st);
                   max_submissions := snd (get_counter st);
                   submissions_remaining :=
                     snd (get_counter st) - fst (get_counter st);
                   is_limit_reached := true |} |},
   st).
Proof.
  intros H. unfold submit_form.
  destruct (get_counter st) as [c m]; cbn [fst snd] in *.
  destruct (Z.geb_spec c m); [reflexivity | lia].
Qed.

Lemma submit_form_open (clk : Clock) (data : json) (st : State) :
  quota_open st ->
  submit_form clk data st =
  match validate data with
  | Reply r => (Ok r, st)
  | Throw e => (Raise e, st)
  | Next selected_robots =>
      accept clk (fst (get_counter st)) (snd (get_counter st)) data
        selected_robots st
  end.
Proof.
  unfold quota_open, submit_form.
  destruct (get_counter st) as [c m]; cbn [fst snd].
  intros H. destruct (Z.geb_spec c m); [lia | reflexivity].
Qed.

Lemma submit_form_passes (clk : Clock) (d : list (pystr * json)) (st : State) :
  quota_open st -> passes d = true ->
  submit_form clk (JDict d) st =
  (Ok (created clk (max_row (loaded_sheet st)) (fst (get_counter st))
         (snd (get_counter st)) d),
   after_accept clk d st).
Proof.
  intros Ho Hp. rewrite (submit_form_open clk _ st Ho).
  destruct (validate_passes d Hp) as [-> _].
  apply accept_passes; auto.
Qed.

(** A response of [validate] is a 400 with a message. *)
Lemma validate_reply (data : json) (r : Response) :
  validate data = Reply r -> exists m, r = failure 400 m.
Proof.
  destruct data as [| b | z | s | l | d].
  1-5: (edestruct validate_not_dict as [-> | ->];
        [intros d; discriminate | intros [= <-]; eauto | discriminate]).
  destruct (present d) eqn:Hp.
  2:{ destruct (validate_absent d Hp) as [m ->]. intros [= <-]; eauto. }
  rewrite (validate_present d Hp).
  repeat match goal with
         | |- Reply _ = Reply _ -> _ => intros [= <-]; eauto
         | |- Throw _ = Reply _ -> _ => discriminate
         | |- Next _ = Reply _ -> _ => discriminate
         | |- context [match ?x with _ => _ end] => destruct x
         end.
Qed.

(** A request that is not answered 201 leaves both files as they were. *)
Lemma submit_form_rejected (clk : Clock) (data : json) (st : State) :
  accepted (fst (submit_form clk data st)) = false ->
  snd (submit_form clk data st) = st
  /\ accepted_id (fst (submit_form clk data st)) = None.
Proof.
  destruct (Z_lt_ge_dec (fst (get_counter st)) (snd (get_counter st)))
    as [Ho | Hc].
  2:{ rewrite (submit_form_closed clk data st Hc). auto. }
  rewrite (submit_form_open clk data st Ho).
  destruct (validate data) as [v | r | e] eqn:Hv.
  - destruct data as [| b | z | s | l | d];
      try (edestruct validate_not_dict as [E | E];
           [ | rewrite E in Hv; discriminate | rewrite E in Hv; discriminate];
           intros d; discriminate).
    pose proof (validate_next d v Hv) as Hp.
    destruct (validate_passes d Hp) as [Hv' _].
    rewrite Hv' in Hv. injection Hv as <-.
    rewrite (accept_passes clk _ _ d st Hp eq_refl). discriminate.
  - destruct (validate_reply data r Hv) as [m ->]. auto.
  - auto.
Qed.

Lemma submit_form_accepted (clk : Clock) (data : json) (st : State) :
  accepted (fst (submit_form clk data st)) = true ->
  exists d, data = JDict d /\ quota_open st /\ passes d = true.
Proof.
  destruct (Z_lt_ge_dec (fst (get_counter st)) (snd (get_counter st)))
    as [Ho | Hc].
  2:{ rewrite (submit_form_closed clk data st Hc). discriminate. }
  rewrite (submit_form_open clk data st Ho).
  destruct (validate data) as [v | r | e] eqn:Hv.
  - destruct data as [| b | z | s | l | d];
      try (edestruct validate_not_dict as [E | E];
           [ | rewrite E in Hv; discriminate | rewrite E in Hv; discriminate];
           intros d; discriminate).
    intros _. exists d. eauto using validate_next.
  - destruct (validate_reply data r Hv) as [m ->]. discriminate.
  - discriminate.
Qed.

(** ** What the service keeps true of its files *)

Lemma ids_from_snoc (a : Z) (n : nat) :
  ids_from a (S n) = ids_from a n ++ [a + Z.of_nat n].
Proof.
  revert a; induction n as [|n IH]; intros a.
  - cbn. f_equal. lia.
  - change (ids_from a (S (S n))) with (a :: ids_from (a + 1) (S n)).
    rewrite IH. cbn [ids_from app]. do 3 f_equal. lia.
Qed.

Lemma filter_numbered (rows : list Row) (xs : list Z) :
  map (fun row => cell row 0) rows = map JInt xs ->
  filter (fun row => negb (is_none (cell row 0))) rows = rows.
Proof.
  revert xs; induction rows as [|row rows IH]; intros [|x xs]; cbn;
    try discriminate; [reflexivity|].
  intros [= Hrow Hrows]. rewrite Hrow. cbn. f_equal. eauto.
Qed.

Lemma store_ok_fresh : store_ok fresh.
Proof. split; cbn; auto. Qed.

Lemma loaded_sheet_ok (st : State) :
  store_ok st ->
  exists rows,
    loaded_sheet st = headers :: rows
    /\ map (fun row => cell row 0) rows = map JInt (ids_from 1 (length rows))
    /\ get_all_submissions st = map row_submission rows.
Proof.
  intros [_ Hs]. unfold loaded_sheet, initialize_excel_file,
    get_all_submissions.
  destruct (excel_file st) as [ws|] eqn:Hws.
  - rewrite Hws. destruct Hs as (rows & -> & Hids).
    exists rows. cbn [skipn]. rewrite (filter_numbered rows _ Hids). auto.
  - exists []. cbn. auto.
Qed.

Lemma after_accept_ok (clk : Clock) (d : list (pystr * json)) (st : State) :
  store_ok st ->
  max_row (loaded_sheet st) = record_count st + 1
  /\ store_ok (after_accept clk d st)
  /\ get_all_submissions (after_accept clk d st)
     = get_all_submissions st ++ [stored clk (record_count st + 1) d]
  /\ get_counter (after_accept clk d st) = (fst (get_counter st) + 1, 10).
Proof.
  intros Hok. destruct (loaded_sheet_ok st Hok) as (rows & Hws & Hids & Hall).
  assert (Hmax : max_row (loaded_sheet st) = record_count st + 1).
  { unfold record_count, max_row. rewrite Hws, Hall, length_map.
    cbn [length]. lia. }
  assert (Hw : forall cells,
             write_row (loaded_sheet st) (max_row (loaded_sheet st) + 1) cells
             = headers :: (rows ++ [cells])).
  { intros cells. unfold write_row. rewrite Hmax. unfold record_count.
    rewrite Hws, Hall, length_map. cbn [length].
    replace (Z.to_nat (Z.of_nat (length rows) + 1 + 1 - 1)
             - S (length rows))%nat
      with 0%nat by lia.
    reflexivity. }
  split; [exact Hmax|].
  unfold after_accept. cbv zeta. rewrite Hw, Hmax.
  split; [|split].
  - split; [reflexivity|]. cbn [excel_file].
    eexists; split; [reflexivity|].
    rewrite map_app, length_app, Hids. cbn [length map].
    rewrite Nat.add_1_r, ids_from_snoc, map_app. cbn [map].
    unfold record_count. rewrite Hall, length_map.
    repeat f_equal. cbn [cell nth]. f_equal. lia.
  - unfold get_all_submissions at 1. cbn [excel_file skipn].
    erewrite filter_numbered.
    + rewrite map_app, Hall. reflexivity.
    + rewrite map_app, Hids. cbn [map cell nth].
      unfold record_count. rewrite Hall, length_map.
      replace (Z.of_nat (length rows) + 1) with (1 + Z.of_nat (length rows))
        by lia.
      change [JInt (1 + Z.of_nat (length rows))]
        with (map JInt [1 + Z.of_nat (length rows)]).
      rewrite <- map_app, <- ids_from_snoc. reflexivity.
  - reflexivity.
Qed.

Lemma update_counter_ok (count : Z) (st : State) :
  store_ok st -> store_ok (update_counter count st).
Proof. intros [_ Hs]. split; [reflexivity | exact Hs]. Qed.

(** The four outcomes of a reset. *)
Lemma reset_counter_cases (data : json) (st : State) :
  (exists code m, reset_counter data st = (failure code m, st))
  \/ (exists r, reset_counter data st = (r, update_counter 0 st)
                /\ submission r = None).
Proof.
  unfold reset_counter, reset_try.
  destruct (truthy data); cbn [negb]; [|eauto].
  destruct (has_password data) as [[|]|e]; eauto.
  destruct (body_item data (lit "password")) as [p|e]; eauto.
  destruct (eq_str p (lit "25485650")); cbn [negb]; eauto.
Qed.

Lemma reset_counter_sheet (data : json) (st : State) :
  excel_file (snd (reset_counter data st)) = excel_file st.
Proof.
  destruct (reset_counter_cases data st) as [(c & m & ->) | (r & -> & _)];
    reflexivity.
Qed.

(** One request: the invariant is kept, and a reported id is the number
    of records before the request plus one, with one record more after. *)
Lemma handle_ok (rq : Request) (st : State) :
  store_ok st ->
  store_ok (snd (handle rq st))
  /\ match accepted_id (fst (handle rq st)) with
     | Some i => i = record_count st + 1
                 /\ record_count (snd (handle rq st)) = record_count st + 1
     | None => record_count (snd (handle rq st)) = record_count st
     end.
Proof.
  intros Hok. destruct rq as [clk data | data | |]; cbn [handle].
  - destruct (accepted (fst (submit_form clk data st))) eqn:Ha.
    + destruct (submit_form_accepted clk data st Ha) as (d & -> & Ho & Hp).
      rewrite (submit_form_passes clk d st Ho Hp). cbn [fst snd accepted_id
        created submission acc_id].
      destruct (after_accept_ok clk d st Hok) as (Hmax & Hok' & Hall & _).
      split; [exact Hok'|]. split; [exact Hmax|].
      unfold record_count at 1. rewrite Hall, length_app. cbn [length].
      unfold record_count. lia.
    + destruct (submit_form_rejected clk data st Ha) as [-> ->]. auto.
  - destruct (reset_counter_cases data st) as [(c & m & ->) | (r & -> & Hr)];
      cbn [fst snd accepted_id].
    + split; [assumption | reflexivity].
    + rewrite Hr. split; [apply update_counter_ok; auto | reflexivity].
  - unfold get_status. destruct (get_counter st). cbn. auto.
  - unfold get_submissions. destruct (get_counter st). cbn. auto.
Qed.

Lemma reachable_ok (st : State) : reachable st -> store_ok st.
Proof.
  induction 1 as [|rq st _ IH]; [apply store_ok_fresh|].
  apply handle_ok; assumption.
Qed.

Lemma run_cons (rq : Request) (rqs : list Request) (st : State) :
  run (rq :: rqs) st =
  (fst (handle rq st) :: fst (run rqs (snd (handle rq st))),
   snd (run rqs (snd (handle rq st)))).
Proof.
  cbn [run]. destruct (handle rq st) as [r st1]. cbn [fst snd].
  destruct (run rqs st1); reflexivity.
Qed.


(** ** Valid payloads pass every check *)







(** ** Replies of an open service *)

Lemma submit_form_reply (clk : Clock) (data : json) (st : State)
    (r : Response) :
  quota_open st -> validate data = Reply r ->
  submit_form clk data st = (Ok r, st).
Proof. intros Ho Hv. rewrite (submit_form_open clk data st Ho), Hv; auto. Qed.

(** While the service is open, a 400 of the handler is a reply of
    [validate]. *)
Lemma submit_form_400 (clk : Clock) (d : list (pystr * json)) (st : State)
    (m : Message) :
  quota_open st ->
  fst (submit_form clk (JDict d) st) = Ok (failure 400 m) ->
  validate (JDict d) = Reply (failure 400 m).
Proof.
  intros Ho. rewrite (submit_form_open clk _ st Ho).
  destruct (validate (JDict d)) as [v | r | e] eqn:Hv.
  - pose proof (validate_next d v Hv) as Hp.
    destruct (validate_passes d Hp) as [Hv' _].
    rewrite Hv' in Hv. injection Hv as <-.
    rewrite (accept_passes clk _ _ d st Hp eq_refl). discriminate.
  - cbn. congruence.
  - discriminate.
Qed.

(** ** Resets *)

Lemma lookup_truthy (d : list (pystr * json)) (k : pystr) (v : json) :
  dict_lookup d k = Some v -> truthy (JDict d) = true.
Proof. destruct d; [discriminate | reflexivity]. Qed.

Lemma reset_wrong (d : list (pystr * json)) (p : json) (st : State) :
  dict_lookup d (lit "password") = Some p ->
  p <> JStr (lit "25485650") ->
  reset_counter (JDict d) st = (failure 401 IncorrectPassword, st).
Proof.
  intros Hl Hp. unfold reset_counter, reset_try.
  rewrite (lookup_truthy d _ p Hl).
  cbn [negb has_password body_item]. unfold dict_item. rewrite Hl.
  destruct (eq_str p (lit "25485650")) eqn:He; [|reflexivity].
  apply eq_str_true in He. contradiction.
Qed.

Lemma reset_right (d : list (pystr * json)) (st : State) :
  dict_lookup d (lit "password") = Some (JStr (lit "25485650")) ->
  reset_counter (JDict d) st =
  ({| status := 200; success := Some true; message := Some CounterReset;
      submission := None; submissions := None;
      counter :=
        Some {| count := 0; max_submissions := 10;
                submissions_remaining := 10;
                is_limit_reached := false |} |},
   update_counter 0 st).
Proof.
  intros Hl. unfold reset_counter, reset_try.
  rewrite (lookup_truthy d _ _ Hl).
  cbn [negb has_password body_item]. unfold dict_item. rewrite Hl.
  cbn [eq_str]. rewrite str_eqb_refl. reflexivity.
Qed.

Lemma reset_missing (d : list (pystr * json)) (st : State) :
  dict_lookup d (lit "password") = None ->
  reset_counter (JDict d) st = (failure 400 PasswordRequired, st).
Proof.
  intros Hl. unfold reset_counter, reset_try.
  destruct (truthy (JDict d)); cbn [negb]; [|reflexivity].
  cbn [has_password]. rewrite Hl. reflexivity.
Qed.

(** ** Runs of valid submissions *)



(** * The claims *)

(** C1. Whenever the counter's count has reached its maximum, [submit_form]
    answers 403 with the current counter snapshot (count, max, remaining,
    limit reached) and leaves the files alone, whatever the body: the
    quota check comes before every check on the fields, so a body that is
    also invalid still gets the quota answer. *)
Theorem quota_check_comes_first (clk : Clock) (data : json) (st : State) :
  fst (get_counter st) >= snd (get_counter st) ->
  submit_form clk data st
  = (Ok (quota_exceeded (fst (get_counter st)) (snd (get_counter st))), st).
Proof.
  intros H. unfold submit_form, quota_exceeded.
  destruct (get_counter st) as [c m]; cbn [fst snd] in *.
  destruct (Z.geb_spec c m); [reflexivity | lia].
Qed.

Lemma quota_check_comes_first_witness :
  valid_payload (JDict (form (str "John3") (str "1234567a") (JList []))) = false
  /\ submit_form clock0
       (JDict (form (str "John3") (str "1234567a") (JList [])))
       (update_counter 10 fresh)
     = (Ok (quota_exceeded 10 10), update_counter 10 fresh).
Proof.
  split; [reflexivity|].
  apply (quota_check_comes_first clock0 _ (update_counter 10 fresh)).
  cbn. lia.
Defined.









(** C6. The phone check lets through a phone of 8 digits followed by a
    newline: a 9-character string is stored as the phone, although the
    check is meant to admit exactly 8 digits.  On the other phones the
    claim names the code agrees with it: "12345678" is accepted, "1234567",
    "123456789" and "1234567a" are answered 400 "Phone number must be
    exactly 8 digits". *)
Theorem phone_trailing_newline_accepted :
  let phone := JStr (lit "12345678" ++ [10%N]) in
  let body := form (str "John Doe") phone cleaning in
  eight_digits (lit "12345678" ++ [10%N]) = false
  /\ length (lit "12345678" ++ [10%N]) = 9%nat
  /\ re_match phone_pattern (lit "12345678" ++ [10%N]) = true
  /\ submit_form clock0 (JDict body) fresh
     = (Ok (created clock0 1 0 10 body), after_accept clock0 body fresh)
  /\ map sub_phone (get_all_submissions (after_accept clock0 body fresh))
     = [phone]
  /\ accepted (fst (submit_form clock0 (JDict john) fresh)) = true
  /\ (forall bad,
        In bad [str "1234567"; str "123456789"; str "1234567a"] ->
        submit_form clock0 (JDict (form (str "John Doe") bad cleaning)) fresh
        = (Ok (failure 400 InvalidPhone), fresh)).
Proof.
  repeat split.
  intros bad [<- | [<- | [<- | []]]]; reflexivity.
Qed.







(** C9, as stated, fails: two failed resets are told apart by their
    responses.  A body without a password is answered 400 "Password is
    required", a body with a wrong password 401 "Incorrect password". *)
Lemma missing_password_told_apart :
  reset_counter (JDict []) fresh = (failure 400 PasswordRequired, fresh)
  /\ reset_counter (credentials (str "wrong")) fresh
     = (failure 401 IncorrectPassword, fresh)
  /\ fst (reset_counter (JDict []) fresh)
     <> fst (reset_counter (credentials (str "wrong")) fresh).
Proof. repeat split. discriminate. Qed.

(** C9, amended. A reset whose body holds a password other than the secret
    is answered 401 "Incorrect password" and changes nothing, whatever the
    value sent -- a string of another length or shape, a number, a list:
    any two wrong passwords get the same response.  A body that holds no
    password is answered differently, 400 "Password is required". *)
Theorem wrong_password_generic (d1 d2 d0 : list (pystr * json))
    (p1 p2 : json) (st : State) :
  dict_lookup d1 (lit "password") = Some p1 ->
  dict_lookup d2 (lit "password") = Some p2 ->
  p1 <> JStr (lit "25485650") ->
  p2 <> JStr (lit "25485650") ->
  dict_lookup d0 (lit "password") = None ->
  reset_counter (JDict d1) st = (failure 401 IncorrectPassword, st)
  /\ reset_counter (JDict d1) st = reset_counter (JDict d2) st
  /\ reset_counter (JDict d0) st = (failure 400 PasswordRequired, st).
Proof.
  intros H1 H2 Hp1 Hp2 H0.
  rewrite (reset_wrong d1 p1 st H1 Hp1), (reset_wrong d2 p2 st H2 Hp2),
    (reset_missing d0 st H0).
  auto.
Qed.

Lemma wrong_password_generic_witness :
  reset_counter (credentials (JInt 25485650)) after_john
  = reset_counter (credentials (str "2548565")) after_john
  /\ reset_counter (JDict [(lit "user", str "admin")]) after_john
     = (failure 400 PasswordRequired, after_john).
Proof.
  refine (proj2 (wrong_password_generic
            [(lit "password", JInt 25485650)]
            [(lit "password", str "2548565")]
            [(lit "user", str "admin")]
            (JInt 25485650) (str "2548565") after_john
            eq_refl eq_refl _ _ eq_refl)); discriminate.
Defined.



(** * Further properties of the handlers and helpers *)

(** ** The files *)

Lemma loaded_sheet_file (st : State) (ws : list Row) :
  excel_file st = Some ws -> loaded_sheet st = ws.
Proof.
  intros H. unfold loaded_sheet, initialize_excel_file. rewrite H, H.
  reflexivity.
Qed.


Lemma write_row_below (ws : list Row) (cells : Row) :
  exists pad, write_row ws (max_row ws + 1) cells = ws ++ pad ++ [cells]
              /\ (ws <> [] -> pad = [])
              /\ (ws = [] -> pad = [[]]).
Proof.
  unfold write_row, max_row. eexists. split; [reflexivity|]. split.
  - intros Hne. destruct ws as [|r ws]; [contradiction|].
    replace (Z.to_nat (Z.max 1 (Z.of_nat (length (r :: ws))) + 1 - 1)
             - length (r :: ws))%nat with 0%nat; [reflexivity|].
    cbn [length]. lia.
  - intros ->. reflexivity.
Qed.

(** X1. An accepted submission writes the counter back with the maximum
    10, whatever maximum [counter.json] held: the response still reports
    the maximum that was read, the file from then on says 10. *)
Theorem accepted_submission_rewrites_max (clk : Clock) (data : json)
    (st : State) :
  accepted (fst (submit_form clk data st)) = true ->
  get_counter (snd (submit_form clk data st))
  = (fst (get_counter st) + 1, 10)
  /\ exists resp,
       fst (submit_form clk data st) = Ok resp
       /\ counter resp
          = Some (counter_info (fst (get_counter st) + 1)
                    (snd (get_counter st))).
Proof.
  intros Ha. destruct (submit_form_accepted clk data st Ha)
    as (d & -> & Ho & Hp).
  rewrite (submit_form_passes clk d st Ho Hp). cbn [fst snd].
  split; [reflexivity|]. eexists. split; reflexivity.
Qed.

Lemma accepted_submission_rewrites_max_witness :
  get_counter (configured 3 20) = (3, 20)
  /\ get_counter (snd (submit_form clock0 (JDict john) (configured 3 20)))
     = (4, 10).
Proof.
  split; [reflexivity|].
  exact (proj1 (accepted_submission_rewrites_max clock0 (JDict john)
                  (configured 3 20) eq_refl)).
Defined.

(** X2. [initialize_excel_file] leaves an existing workbook untouched,
    does nothing the second time, never touches the counter, and the
    workbook it creates lists no submission. *)
Theorem initialize_excel_file_keeps (st : State) (ws : list Row) :
  excel_file st = Some ws ->
  initialize_excel_file st = st
  /\ (forall s, initialize_excel_file (initialize_excel_file s)
                = initialize_excel_file s)
  /\ (forall s, get_all_submissions (initialize_excel_file s)
                = get_all_submissions s)
  /\ (forall s, get_counter (initialize_excel_file s) = get_counter s)
  /\ (forall s, excel_file (initialize_excel_file s) <> None).
Proof.
  intros H. split; [unfold initialize_excel_file; rewrite H; reflexivity|].
  repeat split; intros s; unfold initialize_excel_file;
    destruct (excel_file s) eqn:E; cbn; rewrite ?E; try reflexivity;
    try discriminate.
  unfold get_all_submissions. rewrite E. reflexivity.
Qed.

Lemma initialize_excel_file_keeps_witness :
  initialize_excel_file after_john = after_john.
Proof.
  exact (proj1 (initialize_excel_file_keeps after_john _ eq_refl)).
Defined.

(** One request never rewrites a row. *)
Lemma handle_appends (rq : Request) (st : State) (ws : list Row) :
  excel_file st = Some ws ->
  exists more, excel_file (snd (handle rq st)) = Some (ws ++ more).
Proof.
  intros H. destruct rq as [clk data | data | |]; cbn [handle].
  - destruct (accepted (fst (submit_form clk data st))) eqn:Ha.
    + destruct (submit_form_accepted clk data st Ha) as (d & -> & Ho & Hp).
      rewrite (submit_form_passes clk d st Ho Hp). cbn [snd].
      unfold after_accept. cbv zeta. cbn [excel_file].
      rewrite (loaded_sheet_file st ws H).
      destruct (write_row_below ws
                  [JInt (max_row ws); dict_get d (lit "name") JNull;
                   dict_get d (lit "phone") JNull;
                   dict_get d (lit "email") (JStr []);
                   dict_get d (lit "school_name") JNull;
                   match dict_get d (lit "selected_robots") JNull with
                   | JList l => JStr (join (lit ", ") (names l))
                   | v => v
                   end;
                   JStr (now_strftime clk)]) as (pad & -> & _).
      eauto.
    + destruct (submit_form_rejected clk data st Ha) as [-> _].
      exists []. rewrite app_nil_r. exact H.
  - destruct (reset_counter data st) as [r st'] eqn:E. cbn [snd].
    pose proof (reset_counter_sheet data st) as Hs. rewrite E in Hs.
    cbn [snd] in Hs. exists []. rewrite app_nil_r, Hs. exact H.
  - exists []. rewrite app_nil_r. exact H.
  - exists []. rewrite app_nil_r. exact H.
Qed.

(** X3. The workbook is append-only: over any sequence of requests, from
    any state, the rows that were in the workbook stay where they were
    and as they were; requests only add rows below them. *)
Theorem workbook_append_only (rqs : list Request) (st : State)
    (ws : list Row) :
  excel_file st = Some ws ->
  exists more, excel_file (snd (run rqs st)) = Some (ws ++ more).
Proof.
  revert st ws; induction rqs as [|rq rqs IH]; intros st ws H.
  - exists []. rewrite app_nil_r. exact H.
  - rewrite run_cons. cbn [snd].
    destruct (handle_appends rq st ws H) as (m1 & H1).
    destruct (IH _ _ H1) as (m2 & H2).
    exists (m1 ++ m2). rewrite H2, app_assoc. reflexivity.
Qed.

Lemma workbook_append_only_witness :
  exists more,
    excel_file
      (snd (run [Reset (credentials (str "25485650"));
                 Submit clock0 (JDict john)] after_john))
    = Some ([headers;
             [JInt 1; str "John Doe"; str "12345678"; JStr [];
              str "Hillside School"; str "Cleaning Robot";
              JStr (now_strftime clock0)]] ++ more).
Proof.
  exact (workbook_append_only
           [Reset (credentials (str "25485650")); Submit clock0 (JDict john)]
           after_john _ eq_refl).
Defined.






Lemma str_items_not_string (l : list json) (v : json) :
  In v l -> (forall s, v <> JStr s) -> str_items l = Raise TypeError.
Proof.
  intros Hin Hv. induction l as [|x l IH]; [contradiction|].
  destruct Hin as [-> | Hin].
  - destruct v; try reflexivity. exfalso. eapply Hv. reflexivity.
  - destruct x; try reflexivity. cbn [str_items]. rewrite (IH Hin).
    reflexivity.
Qed.

(** X5. [add_submission_to_excel] raises [TypeError] when the list of
    robots holds anything that is not a string: no row is written and the
    counter is not touched, but the workbook has been created by then if
    it did not exist. *)
Theorem add_submission_rejects_mixed_list (clk : Clock)
    (name phone email school_name : json) (l : list json) (v : json)
    (st : State) :
  In v l -> (forall s, v <> JStr s) ->
  add_submission_to_excel clk name phone email school_name (JList l) st
  = (Raise TypeError, initialize_excel_file st)
  /\ get_all_submissions (initialize_excel_file st) = get_all_submissions st
  /\ get_counter (initialize_excel_file st) = get_counter st
  /\ excel_file (initialize_excel_file st) <> None.
Proof.
  intros Hin Hv. unfold add_submission_to_excel.
  rewrite (str_items_not_string l v Hin Hv). split; [reflexivity|].
  unfold initialize_excel_file, get_all_submissions.
  destruct (excel_file st) eqn:E; cbn; rewrite ?E; repeat split;
    discriminate.
Qed.

Lemma add_submission_rejects_mixed_list_witness :
  add_submission_to_excel clock0 (str "John Doe") (str "12345678") (JStr [])
    (str "Hillside School") (JList [str "Cleaning Robot"; JInt 3]) fresh
  = (Raise TypeError,
     {| excel_file := Some [headers]; counter_file := None |}).
Proof.
  refine (proj1 (add_submission_rejects_mixed_list clock0 _ _ _ _
                   [str "Cleaning Robot"; JInt 3] (JInt 3) fresh _ _)).
  - right; left; reflexivity.
  - discriminate.
Defined.

(** X6. While the service is open, a body that is not a JSON object is
    answered 400 "No data provided" when it is falsy (null, false, 0, "",
    []) and makes the handler raise [AttributeError] when it is truthy (a
    number, true, a non-empty string or list); the empty object is
    answered "No data provided" too.  Nothing is written either way. *)
Theorem non_object_body (clk : Clock) (data : json) (st : State) :
  quota_open st ->
  (forall d, data <> JDict d) ->
  submit_form clk data st
  = (if truthy data then Raise AttributeError
     else Ok (failure 400 NoData), st)
  /\ submit_form clk (JDict []) st = (Ok (failure 400 NoData), st).
Proof.
  intros Ho Hnd. rewrite !(submit_form_open clk _ st Ho). split.
  - unfold validate.
    destruct data as [| [] | z | [|c s] | [|x l] | d]; cbn; try reflexivity.
    + destruct (z =? 0); reflexivity.
    + exfalso. eapply Hnd. reflexivity.
  - reflexivity.
Qed.

Lemma non_object_body_witness :
  submit_form clock0 (JList [JDict john]) fresh = (Raise AttributeError, fresh)
  /\ submit_form clock0 JNull fresh = (Ok (failure 400 NoData), fresh).
Proof.
  assert (Ho : quota_open fresh) by (vm_compute; reflexivity).
  split.
  - refine (proj1 (non_object_body clock0 (JList [JDict john]) fresh Ho _)).
    discriminate.
  - refine (proj1 (non_object_body clock0 JNull fresh Ho _)).
    discriminate.
Defined.

(** X7. The presence check reports one field only, the first of name,
    phone, school_name, selected_robots whose value is absent or falsy
    (null, false, 0, "", [], {}), and it is made before any pattern is
    tried: the values of the other fields play no part. *)
Theorem first_missing_field (clk : Clock) (d : list (pystr * json))
    (st : State) (before after : list pystr) (field : pystr) :
  quota_open st ->
  d <> [] ->
  required_fields = before ++ field :: after ->
  Forall (fun f => truthy (dict_get d f JNull) = true) before ->
  truthy (dict_get d field JNull) = false ->
  submit_form clk (JDict d) st
  = (Ok (failure 400 (MissingField field)), st).
Proof.
  intros Ho Hne Hreq Hbefore Hfield.
  apply submit_form_reply; [exact Ho|]. unfold validate.
  replace (truthy (JDict d)) with true by (destruct d; easy).
  cbn [negb return_if bind]. rewrite check_required_dict, Hreq.
  clear Hreq. induction Hbefore as [|f before Hf _ IH]; cbn [app find].
  - rewrite Hfield. reflexivity.
  - rewrite Hf. cbn [negb]. exact IH.
Qed.

Lemma first_missing_field_witness :
  submit_form clock0
    (JDict [(lit "name", str "John3"); (lit "phone", JInt 0);
            (lit "selected_robots", JList [])]) fresh
  = (Ok (failure 400 (MissingField (lit "phone"))), fresh).
Proof.
  assert (Ho : quota_open fresh) by (vm_compute; reflexivity).
  refine (first_missing_field clock0
            [(lit "name", str "John3"); (lit "phone", JInt 0);
             (lit "selected_robots", JList [])]
            fresh [lit "name"]
            [lit "school_name"; lit "selected_robots"] (lit "phone")
            Ho _ eq_refl _ eq_refl).
  - discriminate.
  - repeat constructor.
Defined.

(** X8. For a body that passes the quota, presence and name checks and
    whose phone is a string, the answer is 400 "Phone number must be
    exactly 8 digits" exactly when the phone is neither 8 digits nor 8
    digits followed by one newline, whatever the email and the robots
    are. *)
Theorem phone_checked (clk : Clock) (d : list (pystr * json)) (st : State)
    (phone : pystr) :
  quota_open st ->
  present d = true -> name_passes d = true ->
  dict_lookup d (lit "phone") = Some (JStr phone) ->
  (fst (submit_form clk (JDict d) st) = Ok (failure 400 InvalidPhone)
   <-> ~ (eight_digits phone = true
          \/ exists digits, eight_digits digits = true
                            /\ phone = digits ++ [10%N]))
  /\ (fst (submit_form clk (JDict d) st) = Ok (failure 400 InvalidPhone) ->
      snd (submit_form clk (JDict d) st) = st).
Proof.
  intros Ho Hp Hn Hl.
  assert (Hspec : re_match phone_pattern phone = true <->
                  (eight_digits phone = true
                   \/ exists digits, eight_digits digits = true
                                     /\ phone = digits ++ [10%N])).
  { rewrite phone_pattern_spec. split.
    - intros (dg & Hd & [-> | ->]); eauto.
    - intros [H | (dg & Hd & ->)]; eauto. }
  assert (Hv : validate (JDict d)
               = if re_match phone_pattern phone
                 then validate (JDict d)
                 else Reply (failure 400 InvalidPhone)).
  { rewrite (validate_present d Hp). unfold name_passes in Hn.
    field_cases (dict_lookup d (lit "name")). rewrite Hn, Hl.
    destruct (re_match phone_pattern phone); reflexivity. }
  split.
  - split.
    + intros H. apply (submit_form_400 clk d st _ Ho) in H.
      rewrite <- Hspec. intros Hm.
      assert (Hpp : phone_passes d = true)
        by (unfold phone_passes; rewrite Hl; exact Hm).
      rewrite (validate_email_robots d Hp Hn Hpp) in H.
      repeat match type of H with
             | context [match ?x with _ => _ end] => destruct x
             end; discriminate.
    + intros Hno. rewrite <- Hspec in Hno.
      destruct (re_match phone_pattern phone) eqn:Hm; [tauto|].
      rewrite (submit_form_reply clk _ st _ Ho Hv). reflexivity.
  - intros H. apply (submit_form_400 clk d st _ Ho) in H.
    rewrite (submit_form_reply clk _ st _ Ho H). reflexivity.
Qed.

Lemma phone_checked_witness :
  fst (submit_form clock0
         (JDict (form (str "John Doe") (str "+85212345678") (JInt 1))) fresh)
  = Ok (failure 400 InvalidPhone).
Proof.
  assert (Ho : quota_open fresh) by (vm_compute; reflexivity).
  apply (proj1 (phone_checked clock0
                  (form (str "John Doe") (str "+85212345678") (JInt 1))
                  fresh (lit "+85212345678") Ho eq_refl eq_refl eq_refl)).
  intros [H | (digits & H & E)]; [discriminate|].
  unfold eight_digits in H. apply andb_true_iff in H as [Hlen _].
  apply Nat.eqb_eq in Hlen.
  apply (f_equal (@length N)) in E. rewrite length_app, Hlen in E.
  discriminate.
Defined.

(** X9. An email that is present but not a string -- JSON null included --
    makes the handler raise [AttributeError] once the earlier checks have
    passed; nothing is written. *)
Theorem email_not_a_string (clk : Clock) (d : list (pystr * json))
    (st : State) (email : json) :
  quota_open st ->
  present d = true -> name_passes d = true -> phone_passes d = true ->
  dict_lookup d (lit "email") = Some email ->
  (forall s, email <> JStr s) ->
  submit_form clk (JDict d) st = (Raise AttributeError, st).
Proof.
  intros Ho Hp Hn Hph Hl He.
  rewrite (submit_form_open clk _ st Ho),
    (validate_email_robots d Hp Hn Hph).
  unfold dict_get. rewrite Hl.
  destruct email; try reflexivity. exfalso. eapply He. reflexivity.
Qed.

Lemma email_not_a_string_witness :
  submit_form clock0 (JDict (with_email JNull john)) fresh
  = (Raise AttributeError, fresh).
Proof.
  assert (Ho : quota_open fresh) by (vm_compute; reflexivity).
  refine (email_not_a_string clock0 (with_email JNull john) fresh JNull
            Ho eq_refl eq_refl eq_refl eq_refl _).
  discriminate.
Defined.

(** X10. Once the earlier checks have passed, the answer 400 "Please
    select at least one robot type" is given exactly when
    [selected_robots] is not a list (a string, a number, an object, true);
    an empty list never gets this answer, the presence check has already
    reported it as missing. *)
Theorem no_robot_selected (clk : Clock) (d : list (pystr * json))
    (st : State) (robots : json) :
  quota_open st ->
  present d = true -> name_passes d = true -> phone_passes d = true ->
  email_passes d = true ->
  dict_lookup d (lit "selected_robots") = Some robots ->
  (fst (submit_form clk (JDict d) st) = Ok (failure 400 NoRobotSelected)
   <-> forall l, robots <> JList l)
  /\ robots <> JList [].
Proof.
  intros Ho Hp Hn Hph He Hl.
  assert (Hne : robots <> JList []).
  { intros ->. destruct (present_lookup d (lit "selected_robots") Hp)
      as (v & Hv & Ht).
    - unfold required_fields. cbn. auto.
    - rewrite Hl in Hv. injection Hv as <-. discriminate. }
  split; [|exact Hne].
  assert (Hv : validate (JDict d)
               = match robots with
                 | JList l =>
                     match find (fun r => negb (is_allowed r)) l with
                     | Some r => Reply (failure 400 (InvalidRobotType r))
                     | None => Next (JList l)
                     end
                 | _ => Reply (failure 400 NoRobotSelected)
                 end).
  { rewrite (validate_email_robots d Hp Hn Hph), Hl.
    unfold email_passes in He. unfold dict_get.
    assert (Hrest : forall (A : Type) (x y : A) (l : list json),
               robots = JList l ->
               (if nonempty l then x else y) = x).
    { intros A x y [|r l] ->; [contradiction | reflexivity]. }
    field_cases (dict_lookup d (lit "email")).
    - apply negb_true_iff in He. rewrite He.
      destruct robots; try reflexivity. apply Hrest. reflexivity.
    - cbn [strip lstrip rstrip rev nonempty andb].
      destruct robots; try reflexivity. apply Hrest. reflexivity. }
  split.
  - intros H l ->. apply (submit_form_400 clk d st _ Ho) in H.
    rewrite Hv in H. destruct (find _ l); discriminate.
  - intros Hnl. rewrite (submit_form_open clk _ st Ho), Hv.
    destruct robots; try reflexivity. exfalso. eapply Hnl. reflexivity.
Qed.

Lemma no_robot_selected_witness :
  fst (submit_form clock0
         (JDict (form (str "John Doe") (str "12345678")
                   (str "Cleaning Robot"))) fresh)
  = Ok (failure 400 NoRobotSelected).
Proof.
  assert (Ho : quota_open fresh) by (vm_compute; reflexivity).
  apply (proj1 (no_robot_selected clock0
                  (form (str "John Doe") (str "12345678")
                     (str "Cleaning Robot"))
                  fresh (str "Cleaning Robot") Ho
                  eq_refl eq_refl eq_refl eq_refl eq_refl)).
  discriminate.
Defined.

(** ** The counter over the life of the service *)





(** X12. In every state the service reaches, the counter object of a 201
    response is the one GET /status reports right after it, and it says
    [is_limit_reached] exactly when the gate is then closed: every
    further submit, whatever its body, is answered 403 and changes
    nothing. *)
Theorem response_counter_is_status (clk : Clock) (data : json) (st : State) :
  reachable st ->
  accepted (fst (submit_form clk data st)) = true ->
  let st' := snd (submit_form clk data st) in
  exists resp info,
    fst (submit_form clk data st) = Ok resp
    /\ counter resp = Some info
    /\ counter (get_status st') = Some info
    /\ (is_limit_reached info = true <-> quota_closed st')
    /\ (is_limit_reached info = true ->
        forall clk' data',
          submit_form clk' data' st' = (Ok (quota_exceeded 10 10), st')).
Proof.
  intros Hr Ha st'. subst st'.
  destruct (reachable_ok st Hr) as [Hmax _].
  destruct (submit_form_accepted clk data st Ha) as (d & -> & Ho & Hp).
  rewrite (submit_form_passes clk d st Ho Hp). cbn [fst snd].
  unfold quota_open in Ho. rewrite Hmax in *.
  exists (created clk (max_row (loaded_sheet st)) (fst (get_counter st)) 10 d),
    (counter_info (fst (get_counter st) + 1) 10).
  split; [reflexivity|]. split; [reflexivity|]. split; [reflexivity|].
  cbn [counter_info is_limit_reached]. unfold quota_closed.
  change (get_counter (after_accept clk d st))
    with (fst (get_counter st) + 1, 10).
  cbn [fst snd]. rewrite Z.geb_le. split; [lia|].
  intros Hfull clk' data'.
  rewrite (submit_form_closed clk' data' (after_accept clk d st)).
  - change (get_counter (after_accept clk d st))
      with (fst (get_counter st) + 1, 10).
    cbn [fst snd]. replace (fst (get_counter st) + 1) with 10 by lia.
    reflexivity.
  - change (get_counter (after_accept clk d st))
      with (fst (get_counter st) + 1, 10).
    cbn [fst snd]. lia.
Qed.

Lemma response_counter_is_status_witness :
  exists resp info,
    fst (submit_form clock0 (JDict john) after_john) = Ok resp
    /\ counter resp = Some info
    /\ counter (get_status (snd (submit_form clock0 (JDict john) after_john)))
       = Some info.
Proof.
  destruct (response_counter_is_status clock0 (JDict john) after_john
              (reachable_step (Submit clock0 (JDict john)) fresh
                 reachable_fresh) eq_refl)
    as (resp & info & H1 & H2 & H3 & _).
  exists resp, info. auto.
Defined.

(** ** Resets, whatever the body *)

Lemma is_prefix_spec (p s : pystr) :
  is_prefix p s = true <-> exists rest, s = p ++ rest.
Proof.
  revert s; induction p as [|x p IH]; intros s.
  - cbn. split; eauto.
  - destruct s as [|y s]; cbn [is_prefix].
    + split; [discriminate | intros (rest & H); discriminate].
    + rewrite andb_true_iff, N.eqb_eq, IH. split.
      * intros (-> & rest & ->). exists rest. reflexivity.
      * intros (rest & [= -> ->]).
        split; [reflexivity | exists rest; reflexivity].
Qed.

Lemma str_contains_spec (sub s : pystr) :
  str_contains sub s = true <-> exists a b, s = a ++ sub ++ b.
Proof.
  induction s as [|y s IH].
  - cbn [str_contains]. rewrite orb_false_r, is_prefix_spec. split.
    + intros (rest & H). exists [], rest. exact H.
    + intros ([|x a] & b & H); [eauto | discriminate].
  - cbn [str_contains]. rewrite orb_true_iff, is_prefix_spec, IH. split.
    + intros [(rest & ->) | (a & b & ->)].
      * exists [], rest. reflexivity.
      * exists (y :: a), b. reflexivity.
    + intros ([|x a] & b & H).
      * left. exists b. exact H.
      * right. injection H as -> ->. eauto.
Qed.

(** What a reset does, by its body. *)
Lemma reset_counter_outcome (data : json) (st : State) :
  (right_password data
   /\ status (fst (reset_counter data st)) = 200
   /\ snd (reset_counter data st) = update_counter 0 st)
  \/ (~ right_password data
      /\ exists code m, reset_counter data st = (failure code m, st)
                        /\ In code [400; 401; 500]).
Proof.
  destruct data as [| b | z | s | l | d].
  6:{ destruct (dict_lookup d (lit "password")) as [p|] eqn:Hl.
      - destruct (eq_str p (lit "25485650")) eqn:He.
        + apply eq_str_true in He. subst p. left.
          rewrite (reset_right d st Hl). repeat split.
          exists d. auto.
        + right. split.
          * intros (d' & [= <-] & Hd'). rewrite Hd' in Hl.
            injection Hl as <-. cbn in He. rewrite str_eqb_refl in He.
            discriminate.
          * exists 401, IncorrectPassword. split; [|cbn; auto].
            apply (reset_wrong d p st Hl). intros ->.
            cbn in He. rewrite str_eqb_refl in He. discriminate.
      - right. split.
        + intros (d' & [= <-] & Hd'). congruence.
        + exists 400, PasswordRequired.
          split; [apply (reset_missing d st Hl) | cbn; auto]. }
  all: right; split; [intros (d' & H & _); discriminate|];
    unfold reset_counter, reset_try; cbn [truthy].
  - exists 400, PasswordRequired. cbn. auto.
  - destruct b; cbn; eauto 7.
  - destruct (z =? 0); cbn; eauto 7.
  - destruct s as [|c s]; cbn [negb]; [cbn; eauto 7|].
    cbn [has_password body_item].
    destruct (str_contains (lit "password") (c :: s)); cbn; eauto 7.
  - destruct l as [|x l]; cbn [negb]; [cbn; eauto 7|].
    cbn [has_password body_item].
    destruct (existsb _ (x :: l)); cbn; eauto 7.
Qed.

(** X13. A reset changes the counter exactly when its body is an object
    whose password is the string "25485650": it is then answered 200 and
    the count is 0; every other body is answered 400, 401 or 500 and
    leaves both files as they were.  The handler never lets an exception
    escape. *)
Theorem reset_only_with_secret (data : json) (st : State) :
  (status (fst (reset_counter data st)) = 200 <-> right_password data)
  /\ (right_password data ->
      snd (reset_counter data st) = update_counter 0 st)
  /\ (~ right_password data ->
      snd (reset_counter data st) = st
      /\ success (fst (reset_counter data st)) = Some false
      /\ In (status (fst (reset_counter data st))) [400; 401; 500]).
Proof.
  destruct (reset_counter_outcome data st)
    as [(Hr & Hs & Hst) | (Hn & code & m & Heq & Hin)].
  - split; [split; auto|]. split; [auto | contradiction].
  - rewrite Heq. cbn [fst snd failure status success]. split; [|split].
    + split; [|contradiction]. intros ->. cbn in Hin.
      destruct Hin as [H | [H | [H | []]]]; discriminate.
    + contradiction.
    + auto.
Qed.

Lemma reset_only_with_secret_witness :
  snd (reset_counter (credentials (str " 25485650")) after_john) = after_john.
Proof.
  refine (proj1 (proj2 (proj2 (reset_only_with_secret
            (credentials (str " 25485650")) after_john)) _)).
  intros (d & [= <-] & H). discriminate.
Defined.

(** X14. A reset whose body is not an object: a falsy body is answered 400
    "Password is required"; a number or [true] is answered 500; a list is
    answered 500 when the string "password" is one of its elements and
    400 otherwise; a string is answered 500 when it has "password" as a
    substring and 400 otherwise.  None of them changes anything. *)
Theorem reset_non_object_body (data : json) (st : State) :
  (forall d, data <> JDict d) ->
  reset_counter data st =
  (failure (if negb (truthy data) then 400
            else match data with
                 | JList l =>
                     if existsb (fun v => eq_str v (lit "password")) l
                     then 500 else 400
                 | JStr s =>
                     if str_contains (lit "password") s then 500 else 400
                 | _ => 500
                 end)
           (if negb (truthy data) then PasswordRequired
            else match data with
                 | JList l =>
                     if existsb (fun v => eq_str v (lit "password")) l
                     then ResetError else PasswordRequired
                 | JStr s =>
                     if str_contains (lit "password") s
                     then ResetError else PasswordRequired
                 | _ => ResetError
                 end), st)
  /\ (forall l, existsb (fun v => eq_str v (lit "password")) l = true
                <-> In (JStr (lit "password")) l)
  /\ (forall s, str_contains (lit "password") s = true
                <-> exists a b, s = a ++ lit "password" ++ b).
Proof.
  intros Hnd. split; [|split].
  - unfold reset_counter, reset_try.
    destruct data as [| [] | z | [|c s] | [|x l] | d]; cbn [truthy negb];
      try reflexivity.
    + destruct (z =? 0); reflexivity.
    + cbn [has_password body_item].
      destruct (str_contains (lit "password") (c :: s)); reflexivity.
    + cbn [has_password body_item].
      destruct (existsb _ (x :: l)); reflexivity.
    + exfalso. eapply Hnd. reflexivity.
  - intros l. rewrite existsb_exists. split.
    + intros (v & Hin & He). apply eq_str_true in He. subst v. exact Hin.
    + intros Hin. eexists. split; [exact Hin|]. apply eq_str_true.
      reflexivity.
  - intros s. apply str_contains_spec.
Qed.

Lemma reset_non_object_body_witness :
  reset_counter (JList [str "password"; str "25485650"]) after_john
  = (failure 500 ResetError, after_john)
  /\ reset_counter (str "my password is 25485650") after_john
     = (failure 500 ResetError, after_john)
  /\ reset_counter (str "25485650") after_john
     = (failure 400 PasswordRequired, after_john).
Proof.
  split; [|split].
  - refine (proj1 (reset_non_object_body
                     (JList [str "password"; str "25485650"]) after_john _)).
    discriminate.
  - refine (proj1 (reset_non_object_body
                     (str "my password is 25485650") after_john _)).
    discriminate.
  - refine (proj1 (reset_non_object_body (str "25485650") after_john _)).
    discriminate.
Defined.

(** ** Downloads and the quota gate *)



(** X16. The quota gate, request by request, in every state the service
    reaches: it goes from closed to open only on a reset that carries the
    right password; it goes from open to closed only on an accepted
    submission, the one that finds the count at 9; and while it is
    closed a submit changes nothing. *)
Theorem gate_transitions (rq : Request) (st : State) :
  reachable st ->
  let st' := snd (handle rq st) in
  (quota_closed st -> quota_open st' ->
   exists data, rq = Reset data /\ right_password data)
  /\ (quota_open st -> quota_closed st' ->
      exists clk data,
        rq = Submit clk data
        /\ accepted (fst (submit_form clk data st)) = true
        /\ fst (get_counter st) = 9)
  /\ (quota_closed st -> forall clk data, rq = Submit clk data -> st' = st).
Proof.
  intros Hr st'. subst st'.
  destruct (reachable_ok st Hr) as [Hmax _].
  unfold quota_closed, quota_open. rewrite Hmax.
  destruct rq as [clk data | data | |]; cbn [handle].
  - destruct (accepted (fst (submit_form clk data st))) eqn:Ha.
    + destruct (submit_form_accepted clk data st Ha) as (d & -> & Ho & Hp).
      rewrite (submit_form_passes clk d st Ho Hp). cbn [snd].
      unfold quota_open in Ho. rewrite Hmax in Ho.
      change (get_counter (after_accept clk d st))
        with (fst (get_counter st) + 1, 10).
      cbn [fst snd]. split; [lia|]. split; [|lia].
      intros _ Hc. exists clk, (JDict d). repeat split; [exact Ha | lia].
    + destruct (submit_form_rejected clk data st Ha) as [-> _].
      rewrite Hmax. split; [lia|]. split; [lia | reflexivity].
  - destruct (reset_counter_outcome data st)
      as [(Hright & _ & Hst) | (_ & code & m & Heq & _)].
    + destruct (reset_counter data st) as [r st1]. cbn [snd] in *.
      subst st1. cbn [get_counter update_counter counter_file file_count
                       file_max_submissions fst snd].
      split; [eauto|]. split; [lia | discriminate].
    + rewrite Heq. cbn [snd]. rewrite Hmax.
      split; [lia|]. split; [lia | discriminate].
  - cbn [snd]. rewrite Hmax. split; [lia|]. split; [lia | discriminate].
  - cbn [snd]. rewrite Hmax. split; [lia|]. split; [lia | discriminate].
Qed.

Lemma gate_transitions_witness :
  quota_open after_john
  /\ quota_open (snd (handle (Submit clock0 (JDict john)) after_john)).
Proof.
  split; [vm_compute; reflexivity|].
  destruct (gate_transitions (Submit clock0 (JDict john)) after_john
              (reachable_step (Submit clock0 (JDict john)) fresh
                 reachable_fresh)) as (_ & Hclose & _).
  destruct (Z_lt_ge_dec
              (fst (get_counter
                      (snd (handle (Submit clock0 (JDict john)) after_john))))
              (snd (get_counter
                      (snd (handle (Submit clock0 (JDict john)) after_john)))))
    as [Hlt | Hge]; [exact Hlt|].
  assert (Ho : quota_open after_john) by (vm_compute; reflexivity).
  destruct (Hclose Ho Hge) as (clk & data & _ & _ & H9). discriminate.
Defined.

(** ** The database models *)

Lemma split_nonempty (sep : N) (s : pystr) : split sep s <> [].
Proof.
  destruct s as [|c s]; cbn [split]; [discriminate|].
  destruct (N.eqb c sep); [discriminate|].
  destruct (split sep s); discriminate.
Qed.

(** Putting the pieces back together with the separator gives the
    string. *)
Lemma join_split (sep : N) (s : pystr) : join [sep] (split sep s) = s.
Proof.
  induction s as [|c s IH]; [reflexivity|]. cbn [split].
  pose proof (split_nonempty sep s) as Hne.
  destruct (N.eqb_spec c sep) as [-> | _].
  - destruct (split sep s) as [|p ps]; [contradiction|].
    cbn [join app] in *. rewrite IH. reflexivity.
  - destruct (split sep s) as [|p ps]; [contradiction|].
    destruct ps; cbn [join app] in *; rewrite <- IH; reflexivity.
Qed.

Lemma split_free (sep : N) (s : pystr) :
  Forall (fun p => existsb (N.eqb sep) p = false) (split sep s).
Proof.
  induction s as [|c s IH]; [repeat constructor|]. cbn [split].
  destruct (N.eqb_spec c sep) as [-> | Hc].
  - constructor; [reflexivity | exact IH].
  - destruct (split sep s) as [|p ps]; [repeat constructor|].
    + cbn. rewrite orb_false_r. apply N.eqb_neq. congruence.
    + inversion IH as [|? ? Hp Hps]; subst. constructor; [|exact Hps].
      cbn [existsb]. rewrite Hp, orb_false_r. apply N.eqb_neq. congruence.
Qed.

(** X17. [FormSubmission.to_dict] raises [AttributeError] exactly when
    [submitted_at] is unset.  Otherwise its list of robots is empty
    exactly when [selected_robots] is unset or the empty string; no entry
    of the list has a comma, and the entries put back together with
    commas give [selected_robots]. *)
Theorem form_submission_to_dict (self : FormSubmission.t) :
  match FormSubmission.to_dict self with
  | Raise e => e = AttributeError /\ FormSubmission.submitted_at self = None
  | Ok dct =>
      FormSubmission.submitted_at self
      = Some (FormSubmission.d_submitted_at dct)
      /\ join (lit ",") (FormSubmission.d_selected_robots dct)
         = match FormSubmission.selected_robots self with
           | Some s => s
           | None => []
           end
      /\ Forall (fun p => comma_free p = true)
           (FormSubmission.d_selected_robots dct)
      /\ (FormSubmission.d_selected_robots dct = [] <->
          FormSubmission.selected_robots self = None
          \/ FormSubmission.selected_robots self = Some [])
  end.
Proof.
  unfold FormSubmission.to_dict.
  destruct (FormSubmission.submitted_at self) as [iso|]; [|auto].
  cbn [FormSubmission.d_submitted_at FormSubmission.d_selected_robots].
  split; [reflexivity|].
  destruct (FormSubmission.selected_robots self) as [[|c s]|].
  - repeat split; auto.
  - change (lit ",") with [44%N]. rewrite join_split.
    split; [reflexivity|]. split.
    + pose proof (split_free 44 (c :: s)) as H.
      rewrite Forall_forall in *. intros p Hp. unfold comma_free.
      rewrite (H p Hp). reflexivity.
    + split.
      * intros H. exfalso. exact (split_nonempty 44 (c :: s) H).
      * intros [H | H]; discriminate.
  - repeat split; auto.
Qed.

Lemma split_free_id (sep : N) (p : pystr) :
  existsb (N.eqb sep) p = false -> split sep p = [p].
Proof.
  induction p as [|c p IH]; [reflexivity|]. cbn [existsb split].
  intros H. apply orb_false_iff in H as [Hc Hp].
  rewrite N.eqb_sym, Hc, (IH Hp). reflexivity.
Qed.

Lemma split_app_sep (sep : N) (p rest : pystr) :
  existsb (N.eqb sep) p = false ->
  split sep (p ++ sep :: rest) = p :: split sep rest.
Proof.
  induction p as [|c p IH]; cbn [existsb app split].
  - intros _. rewrite N.eqb_refl. reflexivity.
  - intros H. apply orb_false_iff in H as [Hc Hp].
    rewrite N.eqb_sym, Hc, (IH Hp). reflexivity.
Qed.

(** Splitting at the commas what was joined with [", "]. *)
Lemma split_join_comma_space (ps : list pystr) :
  Forall (fun p => comma_free p = true) ps ->
  split 44 (join [44; 32]%N ps)
  = match ps with
    | [] => [[]]
    | p :: rest => p :: map (cons 32%N) rest
    end.
Proof.
  induction 1 as [|p ps Hp Hps IH]; [reflexivity|].
  apply negb_true_iff in Hp.
  destruct ps as [|q rest].
  - cbn [join map]. apply split_free_id. exact Hp.
  - change (join [44; 32]%N (p :: q :: rest))
      with (p ++ 44%N :: 32%N :: join [44; 32]%N (q :: rest)).
    rewrite (split_app_sep 44 p _ Hp). f_equal.
    cbn [split N.eqb Pos.eqb]. rewrite IH. reflexivity.
Qed.

Lemma allowed_names_comma_free (l : list json) :
  forallb is_allowed l = true ->
  Forall (fun p => comma_free p = true) (names l)
  /\ length (names l) = length l.
Proof.
  induction l as [|r l IH]; [split; [constructor | reflexivity]|].
  cbn [forallb]. intros H. apply andb_true_iff in H as [Hr Hl].
  destruct (IH Hl) as [Hf Hlen].
  apply is_allowed_robot_type in Hr.
  destruct Hr as [-> | [-> | ->]]; cbn [names length];
    (split; [constructor; [reflexivity | exact Hf] | congruence]).
Qed.

(** X18. The two files do not agree on the separator: [form.py] stores
    the robot types joined by [", "], [FormSubmission.to_dict] splits at
    [","].  Fed the string [form.py] stores for a list of allowed robot
    types, [to_dict] returns the first type as sent and every later one
    with a blank in front, which is none of the allowed types. *)
Theorem stored_robots_split_back (self : FormSubmission.t) (iso : pystr)
    (first : json) (others : list json) :
  forallb is_allowed (first :: others) = true ->
  FormSubmission.selected_robots self
  = Some (join (lit ", ") (names (first :: others))) ->
  FormSubmission.submitted_at self = Some iso ->
  exists dct,
    FormSubmission.to_dict self = Ok dct
    /\ map JStr (FormSubmission.d_selected_robots dct)
       = first :: map JStr (map (cons 32%N) (names others))
    /\ length (FormSubmission.d_selected_robots dct)
       = length (first :: others)
    /\ forall p, In p (map (cons 32%N) (names others)) ->
                 is_allowed (JStr p) = false.
Proof.
  intros Hall Hsel Hiso.
  destruct (allowed_names_comma_free _ Hall) as [Hfree Hlen].
  pose proof Hall as Hall'. cbn [forallb] in Hall'.
  apply andb_true_iff in Hall' as [Hfirst Hothers].
  apply is_allowed_spec in Hfirst as (s & -> & Hs).
  cbn [names] in *.
  assert (Hne : join (lit ", ") (s :: names others) <> []).
  { assert (Hs' : s <> []).
    { unfold allowed_robots in Hs. cbn [map In] in Hs.
      destruct Hs as [<- | [<- | [<- | []]]]; discriminate. }
    destruct s as [|c s]; [contradiction|].
    destruct (names others); discriminate. }
  unfold FormSubmission.to_dict. rewrite Hsel, Hiso.
  destruct (join (lit ", ") (s :: names others)) as [|c js] eqn:Hj;
    [contradiction|].
  eexists. split; [reflexivity|].
  cbn [FormSubmission.d_selected_robots]. rewrite <- Hj.
  change (lit ", ") with [44%N; 32%N].
  rewrite (split_join_comma_space _ Hfree).
  split; [reflexivity|]. split.
  - cbn [length] in *. rewrite length_map. exact Hlen.
  - intros p Hp. apply in_map_iff in Hp as (q & <- & _).
    destruct (is_allowed (JStr (32%N :: q))) eqn:Ha; [|reflexivity].
    apply is_allowed_robot_type in Ha.
    destruct Ha as [H | [H | H]]; discriminate.
Qed.

Lemma stored_robots_split_back_witness :
  exists dct,
    FormSubmission.to_dict
      {| FormSubmission.id := Some 1;
         FormSubmission.name := Some (lit "John Doe");
         FormSubmission.school_name := Some (lit "Hillside School");
         FormSubmission.selected_robots :=
           Some (lit "Cleaning Robot, Delivery Robot");
         FormSubmission.submitted_at := Some (now_isoformat clock0) |}
    = Ok dct
    /\ map JStr (FormSubmission.d_selected_robots dct)
       = [str "Cleaning Robot"; str " Delivery Robot"].
Proof.
  destruct (stored_robots_split_back
              {| FormSubmission.id := Some 1;
                 FormSubmission.name := Some (lit "John Doe");
                 FormSubmission.school_name := Some (lit "Hillside School");
                 FormSubmission.selected_robots :=
                   Some (lit "Cleaning Robot, Delivery Robot");
                 FormSubmission.submitted_at := Some (now_isoformat clock0) |}
              (now_isoformat clock0)
              (str "Cleaning Robot") [str "Delivery Robot"]
              eq_refl eq_refl eq_refl) as (dct & H1 & H2 & _).
  exists dct. split; [exact H1 | exact H2].
Defined.

(** X19. [SubmissionCounter.to_dict] raises [TypeError] exactly when the
    count or the maximum is unset.  Otherwise its count, maximum,
    remaining and limit flag are the counter object the handlers of
    [form.py] report for the same count and maximum, and the limit flag
    is set exactly when nothing remains. *)
Theorem submission_counter_to_dict (self : SubmissionCounter.t) :
  match SubmissionCounter.to_dict self with
  | Raise e =>
      e = TypeError
      /\ (SubmissionCounter.count self = None
          \/ SubmissionCounter.max_submissions self = None)
  | Ok dct =>
      SubmissionCounter.count self = Some (SubmissionCounter.d_count dct)
      /\ SubmissionCounter.max_submissions self
         = Some (SubmissionCounter.d_max_submissions dct)
      /\ {| count := SubmissionCounter.d_count dct;
            max_submissions := SubmissionCounter.d_max_submissions dct;
            submissions_remaining :=
              SubmissionCounter.d_submissions_remaining dct;
            is_limit_reached := SubmissionCounter.d_is_limit_reached dct |}
         = counter_info (SubmissionCounter.d_count dct)
             (SubmissionCounter.d_max_submissions dct)
      /\ (SubmissionCounter.d_is_limit_reached dct = true <->
          SubmissionCounter.d_submissions_remaining dct <= 0)
  end.
Proof.
  unfold SubmissionCounter.to_dict.
  destruct (SubmissionCounter.max_submissions self) as [m|];
    destruct (SubmissionCounter.count self) as [c|]; auto.
  cbn. repeat split; try reflexivity; rewrite Z.geb_le; lia.
Qed.
